(** * FocusGuard (web version, [app.js]): metrics, classifier and focus
      state machine.

    The JavaScript of [app.js] keeps its session in module-level [let]
    variables and mutates them from three callbacks: the face-mesh result
    callback [onResults] and the click listeners of the start and stop
    buttons.  Here the variables are gathered in the record [App] and each
    callback is a function from [App] to [App].

    Numbers.  Landmark coordinates and the four metrics are JavaScript
    numbers, i.e. IEEE 754 binary64 values: they are Rocq's primitive
    [float], so a division by zero yields an infinity or NaN exactly as it
    does in the browser.  Timestamps ([Date.now()]) and the quantities
    derived from them are integers of milliseconds and are kept in [Z];
    the distraction counter is an integer as well.

    The source file holds two versions of the script one after the other;
    the model is of the second, which has the READING state and the yaw
    metric.

    What is left out: canvas drawing, the DOM text and class updates, and
    the camera object.  They read the state and never write it. *)

From Stdlib Require Import ZArith List Bool Lia Floats.
From Stdlib Require String Ascii DecimalString DecimalPos DecimalZ.
Import ListNotations.

Local Open Scope Z_scope.

(* The decimal thresholds 0.58 and 0.18 denote the nearest binary64 value,
   as they do in JavaScript. *)
Set Warnings "-inexact-float".

(** ** JavaScript number helpers *)

(** [Math.hypot(a, b)].  ECMAScript fixes the special cases in this order:
    an infinite argument gives +Infinity, otherwise a NaN argument gives
    NaN, otherwise all-zero arguments give +0; these three are exact here.
    The remaining case is left by ECMAScript to the engine ("an
    implementation-approximated value of the square root of the sum of
    squares").  It is taken here as [sqrt (a * a + b * b)] evaluated in
    binary64, which is an approximation of the engine's value and not the
    same function: it can differ from it in the last place, it overflows
    to Infinity for large arguments (from about 1e154) and underflows to 0
    for small ones (below about 1e-162) where an engine returns a finite
    nonzero number.  The theorems below rest on the three exact cases; the
    examples that evaluate an EAR reach the last case only with
    differences whose squares, sum and root are exact. *)
Definition hypot (a b : float) : float :=
  if is_infinity a || is_infinity b then infinity
  else if is_nan a || is_nan b then nan
  else if is_zero a && is_zero b then zero
  else sqrt (a * a + b * b)%float.

(** [x - y] where [y] may be [null]: [null] converts to [0]. *)
Definition toNumber (o : option Z) : Z :=
  match o with
  | Some t => t
  | None => 0
  end.

(** ** Landmark frames *)

Record Landmark := mkLandmark { x : float; y : float; z : float }.

(** One detected face: the face mesh delivers a fixed-size array (478
    points with [refineLandmarks]), read by position only. *)
Definition LandmarkFrame := N -> Landmark.

(** ** Configuration *)

Record Thresholds := mkThresholds {
  PITCH_MAX_DOWN : float;
  PITCH_MIN_DOWN : float;
  YAW_DISTRACTED : float;
  GAZE_DOWN : float;
  EAR_CLOSED : float;
  DELAY_MS : Z;
  SLEEP_DELAY_MS : Z
}.

Definition THRESHOLDS : Thresholds := {|
  PITCH_MAX_DOWN := (-20)%float;
  PITCH_MIN_DOWN := (-2)%float;
  YAW_DISTRACTED := 45%float;
  GAZE_DOWN := 0.58%float;
  EAR_CLOSED := 0.18%float;
  DELAY_MS := 4000;
  SLEEP_DELAY_MS := 3000
|}.

(** ** Geometric metrics *)

Definition calculatePitch (landmarks : LandmarkFrame) : float :=
  let nose := landmarks 1%N in
  let chin := landmarks 152%N in
  let top := landmarks 10%N in
  let midY := ((y top + y chin) / 2)%float in
  let verticalSpan := (y chin - y top)%float in
  let noseOffset := (y nose - midY)%float in
  ((noseOffset / verticalSpan) * (-90))%float.

Definition calculateYaw (landmarks : LandmarkFrame) : float :=
  let nose := landmarks 1%N in
  let leftEyeOuter := landmarks 33%N in
  let rightEyeOuter := landmarks 263%N in
  let leftDist := abs (x nose - x leftEyeOuter) in
  let rightDist := abs (x nose - x rightEyeOuter) in
  let faceSpan := abs (x leftEyeOuter - x rightEyeOuter) in
  if (faceSpan =? 0)%float then 0%float
  else
    let diff := (leftDist - rightDist)%float in
    ((diff / faceSpan) * 90)%float.

Definition calculateGazeRatio (landmarks : LandmarkFrame) : float :=
  let leftIris := landmarks 468%N in
  let rightIris := landmarks 473%N in
  let leftTop := y (landmarks 159%N) in
  let leftBottom := y (landmarks 145%N) in
  let rightTop := y (landmarks 386%N) in
  let rightBottom := y (landmarks 374%N) in
  let leftRatio := ((y leftIris - leftTop) / (leftBottom - leftTop))%float in
  let rightRatio := ((y rightIris - rightTop) / (rightBottom - rightTop))%float in
  ((leftRatio + rightRatio) / 2)%float.

Definition eyeEAR (landmarks : LandmarkFrame) (p1 p2 p3 p4 p5 p6 : N) : float :=
  let v1 := hypot (x (landmarks p2) - x (landmarks p6)) (y (landmarks p2) - y (landmarks p6)) in
  let v2 := hypot (x (landmarks p3) - x (landmarks p5)) (y (landmarks p3) - y (landmarks p5)) in
  let h := hypot (x (landmarks p1) - x (landmarks p4)) (y (landmarks p1) - y (landmarks p4)) in
  ((v1 + v2) / (2.0 * h))%float.

Definition calculateEAR (landmarks : LandmarkFrame) : float :=
  let leftEAR := eyeEAR landmarks 33%N 160%N 158%N 133%N 153%N 144%N in
  let rightEAR := eyeEAR landmarks 362%N 387%N 385%N 263%N 380%N 373%N in
  ((leftEAR + rightEAR) / 2.0)%float.

(** ** Threshold classifier

    In [onResults] these are [const]s computed from the four metrics of the
    frame; a [MetricSample] holds the four metrics. *)

Record MetricSample := mkSample {
  pitch : float;
  yaw : float;
  gaze : float;
  ear : float
}.

Definition metrics (landmarks : LandmarkFrame) : MetricSample := {|
  pitch := calculatePitch landmarks;
  yaw := calculateYaw landmarks;
  gaze := calculateGazeRatio landmarks;
  ear := calculateEAR landmarks
|}.

Definition isSlumpingDown (m : MetricSample) : bool :=
  (pitch m <? PITCH_MAX_DOWN THRESHOLDS)%float.

Definition isBowingToRead (m : MetricSample) : bool :=
  (pitch m <? PITCH_MIN_DOWN THRESHOLDS)%float
  && (PITCH_MAX_DOWN THRESHOLDS <=? pitch m)%float.

Definition isHeadTurned (m : MetricSample) : bool :=
  (YAW_DISTRACTED THRESHOLDS <? abs (yaw m))%float.

Definition isGazeDown (m : MetricSample) : bool :=
  (GAZE_DOWN THRESHOLDS <? gaze m)%float.

Definition isClosed (m : MetricSample) : bool :=
  (ear m <? EAR_CLOSED THRESHOLDS)%float.

Definition isReading (m : MetricSample) : bool :=
  isBowingToRead m && negb (isHeadTurned m) && negb (isClosed m).

Definition distractedSignal (m : MetricSample) : bool :=
  isHeadTurned m || isClosed m || isSlumpingDown m
  || (isBowingToRead m && negb (isReading m) && negb (isGazeDown m)).

(** ** Session state *)

Inductive FocusState := FOCUSED | READING | WARNING | DISTRACTED.

(** The two [<audio>] elements of the page. *)
Inductive Clip := audioA | audioB.

Record App := mkApp {
  isGuarding : bool;
  focusState : FocusState;
  distractionCount : Z;
  focusStartTime : Z;
  lastUpdateTime : Z;
  totalFocusMs : Z;
  warningStartTime : option Z;
  eyesClosedStartTime : option Z;
  currentAudio : option Clip;
  (** the [paused] attribute of each audio element *)
  pausedA : bool;
  pausedB : bool
}.

(** The module as loaded at time [t]. *)
Definition initial (t : Z) : App := {|
  isGuarding := false;
  focusState := FOCUSED;
  distractionCount := 0;
  focusStartTime := t;
  lastUpdateTime := t;
  totalFocusMs := 0;
  warningStartTime := None;
  eyesClosedStartTime := None;
  currentAudio := None;
  pausedA := true;
  pausedB := true
|}.

Definition FocusState_eqb (a b : FocusState) : bool :=
  match a, b with
  | FOCUSED, FOCUSED | READING, READING
  | WARNING, WARNING | DISTRACTED, DISTRACTED => true
  | _, _ => false
  end.

Definition set_focusState (v : FocusState) (s : App) : App :=
  mkApp (isGuarding s) v (distractionCount s) (focusStartTime s)
        (lastUpdateTime s) (totalFocusMs s) (warningStartTime s)
        (eyesClosedStartTime s) (currentAudio s) (pausedA s) (pausedB s).

Definition set_warningStartTime (v : option Z) (s : App) : App :=
  mkApp (isGuarding s) (focusState s) (distractionCount s) (focusStartTime s)
        (lastUpdateTime s) (totalFocusMs s) v
        (eyesClosedStartTime s) (currentAudio s) (pausedA s) (pausedB s).

Definition set_distractionCount (v : Z) (s : App) : App :=
  mkApp (isGuarding s) (focusState s) v (focusStartTime s)
        (lastUpdateTime s) (totalFocusMs s) (warningStartTime s)
        (eyesClosedStartTime s) (currentAudio s) (pausedA s) (pausedB s).

Definition set_isGuarding (v : bool) (s : App) : App :=
  mkApp v (focusState s) (distractionCount s) (focusStartTime s)
        (lastUpdateTime s) (totalFocusMs s) (warningStartTime s)
        (eyesClosedStartTime s) (currentAudio s) (pausedA s) (pausedB s).

Definition set_focusStartTime (v : Z) (s : App) : App :=
  mkApp (isGuarding s) (focusState s) (distractionCount s) v
        (lastUpdateTime s) (totalFocusMs s) (warningStartTime s)
        (eyesClosedStartTime s) (currentAudio s) (pausedA s) (pausedB s).

Definition set_lastUpdateTime (v : Z) (s : App) : App :=
  mkApp (isGuarding s) (focusState s) (distractionCount s) (focusStartTime s)
        v (totalFocusMs s) (warningStartTime s)
        (eyesClosedStartTime s) (currentAudio s) (pausedA s) (pausedB s).

Definition set_totalFocusMs (v : Z) (s : App) : App :=
  mkApp (isGuarding s) (focusState s) (distractionCount s) (focusStartTime s)
        (lastUpdateTime s) v (warningStartTime s)
        (eyesClosedStartTime s) (currentAudio s) (pausedA s) (pausedB s).

Definition set_currentAudio (v : option Clip) (s : App) : App :=
  mkApp (isGuarding s) (focusState s) (distractionCount s) (focusStartTime s)
        (lastUpdateTime s) (totalFocusMs s) (warningStartTime s)
        (eyesClosedStartTime s) v (pausedA s) (pausedB s).

(** ** Audio elements *)

Definition paused (c : Clip) (s : App) : bool :=
  match c with
  | audioA => pausedA s
  | audioB => pausedB s
  end.

Definition set_paused (c : Clip) (v : bool) (s : App) : App :=
  match c with
  | audioA =>
      mkApp (isGuarding s) (focusState s) (distractionCount s) (focusStartTime s)
            (lastUpdateTime s) (totalFocusMs s) (warningStartTime s)
            (eyesClosedStartTime s) (currentAudio s) v (pausedB s)
  | audioB =>
      mkApp (isGuarding s) (focusState s) (distractionCount s) (focusStartTime s)
            (lastUpdateTime s) (totalFocusMs s) (warningStartTime s)
            (eyesClosedStartTime s) (currentAudio s) (pausedA s) v
  end.

(** [c.play()] and [c.pause()], as far as the [paused] attribute goes. *)
Definition play (c : Clip) (s : App) : App := set_paused c false s.
Definition pause (c : Clip) (s : App) : App := set_paused c true s.

(** [playAlarm()].  [coin] is the outcome of [Math.random() > 0.5].  The
    function also installs itself as the [onended] handler of the clip it
    starts, so that the alarm loops; the end of a clip is an event of the
    audio element and lies outside the callbacks modelled here. *)
Definition playAlarm (coin : bool) (s : App) : App :=
  let idle :=
    match currentAudio s with
    | None => true
    | Some c => paused c s
    end in
  if idle then
    let c := if coin then audioA else audioB in
    play c (set_currentAudio (Some c) s)
  else s.

(** [stopAlarm()]; the rewinding ([currentTime = 0]) is not modelled. *)
Definition stopAlarm (s : App) : App :=
  match currentAudio s with
  | Some c => set_currentAudio None (pause c s)
  | None => s
  end.

(** ** Statistics *)

(** [updateStats()]; [now] is the value read from [Date.now()].  The two
    [innerText] assignments that follow the accumulation only display
    [totalFocusMs] and [distractionCount]. *)
Definition updateStats (now : Z) (s : App) : App :=
  if negb (isGuarding s) then s
  else
    let dt := now - lastUpdateTime s in
    let s := set_lastUpdateTime now s in
    match focusState s with
    | FOCUSED | READING => set_totalFocusMs (totalFocusMs s + dt) s
    | _ => s
    end.

(** ** Focus logic *)

(** The [if]/[else if] chain of the face branch of [onResults], as a
    function of the two [const]s it tests, of [now] and of the state. *)
Definition focusLogic (distracted reading : bool) (now : Z) (coin : bool)
    (s : App) : App :=
  match focusState s with
  | FOCUSED | READING =>
      if distracted then
        set_warningStartTime (Some now) (set_focusState WARNING s)
      else if reading then set_focusState READING s
      else set_focusState FOCUSED s
  | WARNING =>
      if negb distracted then
        set_warningStartTime None
          (set_focusState (if reading then READING else FOCUSED) s)
      else if DELAY_MS THRESHOLDS <? now - toNumber (warningStartTime s) then
        playAlarm coin
          (set_distractionCount (distractionCount s + 1)
             (set_focusState DISTRACTED s))
      else s
  | DISTRACTED =>
      if negb distracted then
        stopAlarm (set_focusState (if reading then READING else FOCUSED) s)
      else s
  end.

(** The [else] branch of [onResults]: no face in the frame. *)
Definition noFaceLogic (now : Z) (coin : bool) (s : App) : App :=
  if isGuarding s then
    match focusState s with
    | FOCUSED =>
        set_warningStartTime (Some now) (set_focusState WARNING s)
    | WARNING =>
        if DELAY_MS THRESHOLDS <? now - toNumber (warningStartTime s) then
          playAlarm coin
            (set_distractionCount (distractionCount s + 1)
               (set_focusState DISTRACTED s))
        else s
    | _ => s
    end
  else s.

(** The face branch from the classifier on: the [const]s [isReading] and
    [distractedSignal], then the [if] chain. *)
Definition onMetrics (m : MetricSample) (now : Z) (coin : bool) (s : App) : App :=
  focusLogic (distractedSignal m) (isReading m) now coin s.

(** [onResults(results)].  [multiFaceLandmarks] is the list of detected
    faces (absent or empty when there is none).  The callback reads the
    clock twice: [tStats] inside [updateStats] and [now] in the branch it
    takes. *)
Definition onResults (tStats now : Z) (coin : bool)
    (multiFaceLandmarks : list LandmarkFrame) (s : App) : App :=
  let s := updateStats tStats s in
  match multiFaceLandmarks with
  | landmarks :: _ =>
      onMetrics (metrics landmarks) now coin s
  | [] => noFaceLogic now coin s
  end.

(** ** Controls *)

(** Click on the start button at time [now]. *)
Definition startClick (now : Z) (s : App) : App :=
  let s := set_isGuarding true s in
  let s := set_focusStartTime now s in
  let s := set_lastUpdateTime now s in
  let s := play audioA s in
  pause audioA s.

(** Click on the stop button. *)
Definition stopClick (s : App) : App :=
  let s := set_isGuarding false s in
  let s := stopAlarm s in
  set_focusState FOCUSED s.

(** ** Runs of the callback *)

(** One delivery of the result callback. *)
Record Frame := mkFrame {
  frame_tStats : Z;
  frame_now : Z;
  frame_coin : bool;
  frame_faces : list LandmarkFrame
}.

Definition deliver (f : Frame) (s : App) : App :=
  onResults (frame_tStats f) (frame_now f) (frame_coin f) (frame_faces f) s.

Definition deliverAll (fs : list Frame) (s : App) : App :=
  fold_left (fun acc f => deliver f acc) fs s.

(** A tick of the state machine: time, [distractedSignal], [isReading],
    and the coin of [playAlarm]. *)
Record Tick := mkTick {
  tick_now : Z;
  tick_distracted : bool;
  tick_reading : bool;
  tick_coin : bool
}.

Definition tick (k : Tick) (s : App) : App :=
  focusLogic (tick_distracted k) (tick_reading k) (tick_now k) (tick_coin k) s.

Definition runTicks (ks : list Tick) (s : App) : App :=
  fold_left (fun acc k => tick k acc) ks s.

(** A run of frames spaced [dt] apart on the clock of [updateStats],
    starting [dt] after [t]. *)
Fixpoint evenlySpaced (t dt : Z) (fs : list Frame) : Prop :=
  match fs with
  | [] => True
  | f :: fs' => frame_tStats f = t + dt /\ evenlySpaced (t + dt) dt fs'
  end.

(** The state is [FOCUSED] before the run and after each of its frames. *)
Fixpoint staysFocused (fs : list Frame) (s : App) : Prop :=
  focusState s = FOCUSED /\
  match fs with
  | [] => True
  | f :: fs' => staysFocused fs' (deliver f s)
  end.

(** ** Distracted episodes of a tick sequence

    An episode is a maximal run of consecutive ticks with
    [distractedSignal] true; it is recorded as the times of its first and
    last tick.  [cur] is the episode under way, if any. *)
Fixpoint episodesFrom (cur : option (Z * Z)) (ks : list Tick) : list (Z * Z) :=
  match ks with
  | [] =>
      match cur with
      | Some e => [e]
      | None => []
      end
  | k :: ks' =>
      if tick_distracted k then
        let first :=
          match cur with
          | Some e => fst e
          | None => tick_now k
          end in
        episodesFrom (Some (first, tick_now k)) ks'
      else
        match cur with
        | Some e => e :: episodesFrom None ks'
        | None => episodesFrom None ks'
        end
  end.

Definition episodes (ks : list Tick) : list (Z * Z) := episodesFrom None ks.

(** The episode lasted longer than the debounce delay. *)
Definition exceedsDelay (e : Z * Z) : bool :=
  DELAY_MS THRESHOLDS <? snd e - fst e.

Definition longEpisodes (ks : list Tick) : Z :=
  Z.of_nat (length (filter exceedsDelay (episodes ks))).

(** Ticks arrive in time order: no tick is earlier than [t] nor than the
    tick before it. *)
Fixpoint chronologicalFrom (t : Z) (ks : list Tick) : bool :=
  match ks with
  | [] => true
  | k :: ks' => (t <=? tick_now k) && chronologicalFrom (tick_now k) ks'
  end.

Definition chronological (ks : list Tick) : bool :=
  match ks with
  | [] => true
  | k :: ks' => chronologicalFrom (tick_now k) ks'
  end.

(** ** Example frames *)

Definition point (px py : float) : Landmark := mkLandmark px py 0.

(** Replace landmark [i] of a frame. *)
Definition withLandmark (i : N) (p : Landmark) (f : LandmarkFrame) : LandmarkFrame :=
  fun j => if N.eqb j i then p else f j.

(** A frontal face with open eyes looking ahead; [noseY] moves the nose tip
    up and down between forehead (y = 0) and chin (y = 0.5625). *)
Definition face (noseY : float) : LandmarkFrame :=
  withLandmark 1 (point 0.5 noseY)
 (withLandmark 10 (point 0.5 0)
 (withLandmark 152 (point 0.5 0.5625)
 (withLandmark 33 (point 0.25 0.25)
 (withLandmark 133 (point 0.4375 0.25)
 (withLandmark 362 (point 0.5625 0.25)
 (withLandmark 263 (point 0.75 0.25)
 (withLandmark 160 (point 0.3125 0.21875)
 (withLandmark 158 (point 0.375 0.21875)
 (withLandmark 159 (point 0.34375 0.21875)
 (withLandmark 144 (point 0.3125 0.28125)
 (withLandmark 153 (point 0.375 0.28125)
 (withLandmark 145 (point 0.34375 0.28125)
 (withLandmark 387 (point 0.6875 0.21875)
 (withLandmark 385 (point 0.625 0.21875)
 (withLandmark 386 (point 0.65625 0.21875)
 (withLandmark 373 (point 0.6875 0.28125)
 (withLandmark 380 (point 0.625 0.28125)
 (withLandmark 374 (point 0.65625 0.28125)
 (withLandmark 468 (point 0.34375 0.25)
 (withLandmark 473 (point 0.65625 0.25)
    (fun _ => point 0.5 0.5))))))))))))))))))))).

(** Head level, head bowed into the reading bracket, head slumped. *)
Definition faceLevel : LandmarkFrame := face 0.28125.
Definition faceBowed : LandmarkFrame := face 0.34375.
Definition faceSlumped : LandmarkFrame := face 0.4375.

(** A session just started at time 0 on a page loaded at time 0. *)
Definition fresh : App := startClick 0 (initial 0).

(** A session that has seen a level frame, then a slump lasting past the
    delay: two seconds of focus time, one distraction, alarm sounding. *)
Definition busy : App :=
  deliverAll [mkFrame 1000 1000 true [faceLevel];
              mkFrame 2000 2000 true [faceSlumped];
              mkFrame 7000 7000 true [faceSlumped]] fresh.

(** A session in READING: one bowed frame after the start. *)
Definition reading : App := deliver (mkFrame 1000 1000 true [faceBowed]) fresh.

(** Stop followed by start at time [t] leaves a session as new: FOCUSED,
    no alarm, both statistics at zero. *)
Definition restartResets (s : App) (t : Z) : Prop :=
  let s' := startClick t (stopClick s) in
  focusState s' = FOCUSED
  /\ currentAudio s' = None
  /\ totalFocusMs s' = 0
  /\ distractionCount s' = 0.

(** In [WARNING] the warning start holds a timestamp. *)
Definition warningTimed (s : App) : Prop :=
  focusState s = WARNING -> exists t, warningStartTime s = Some t.

(** How the state machine stands to the episode under way: outside an
    episode it is in FOCUSED or READING; inside one that began at [t0] and
    has reached [t1] it is in WARNING, timed from [t0], while the episode
    is within the delay, and in DISTRACTED once it is past it. *)
Definition tracks (cur : option (Z * Z)) (s : App) : Prop :=
  match cur with
  | None => focusState s = FOCUSED \/ focusState s = READING
  | Some (t0, t1) =>
      t0 <= t1 /\
      ((focusState s = WARNING /\ warningStartTime s = Some t0
        /\ t1 - t0 <= DELAY_MS THRESHOLDS)
       \/ (focusState s = DISTRACTED /\ DELAY_MS THRESHOLDS < t1 - t0))
  end.

(** Time order of the ticks that follow the episode under way. *)
Definition chronologicalAfter (cur : option (Z * Z)) (ks : list Tick) : bool :=
  match cur with
  | None => chronological ks
  | Some e => chronologicalFrom (snd e) ks
  end.

Definition countLong (es : list (Z * Z)) : Z :=
  Z.of_nat (length (filter exceedsDelay es)).

(** 1 when the episode under way has been counted already. *)
Definition counted (s : App) : Z :=
  match focusState s with
  | DISTRACTED => 1
  | _ => 0
  end.

(** An alternation of distracted and attentive ticks: a long episode
    (0 to 5000), a short one (7000), a long one (9000 to 14000). *)
Definition alternating : list Tick :=
  [mkTick 0 true false true; mkTick 3000 true false true;
   mkTick 4500 true false true; mkTick 5000 true false true;
   mkTick 6000 false false true;
   mkTick 7000 true false true;
   mkTick 8000 false true true;
   mkTick 9000 true false true; mkTick 14000 true false true].

(** ** Degenerate geometry *)

(** Landmarks [p1] and [p4], the two horizontal corners of an eye, are at
    the same place ([===] on both coordinates). *)
Definition zeroWidth (landmarks : LandmarkFrame) (p1 p4 : N) : bool :=
  (x (landmarks p1) =? x (landmarks p4))%float
  && (y (landmarks p1) =? y (landmarks p4))%float.

(** The upper and the lower eyelid landmark are at the same height. *)
Definition lidsMeet (landmarks : LandmarkFrame) (top bottom : N) : bool :=
  (y (landmarks bottom) =? y (landmarks top))%float.

(** The level face with the inner corner of the left eye moved onto the
    outer corner. *)
Definition pinchedEye : LandmarkFrame :=
  withLandmark 133 (point 0.25 0.25) faceLevel.

(** The level face with the left lower lid raised to the upper lid. *)
Definition shutLid : LandmarkFrame :=
  withLandmark 145 (point 0.34375 0.21875) faceLevel.

(** The level face with the right outer eye corner at the x of the left
    one. *)
Definition edgeOn : LandmarkFrame :=
  withLandmark 263 (point 0.25 0.3125) faceLevel.

(** The EAR of a frame with a zero-width eye is an ordinary (finite)
    number. *)
Definition earDefinedAt (landmarks : LandmarkFrame) : Prop :=
  zeroWidth landmarks 33 133 || zeroWidth landmarks 362 263 = true ->
  is_finite (calculateEAR landmarks) = true.

(** Shapes of a binary64 value as given by [Prim2SF]. *)
Definition SFnonfinite (v : spec_float) : bool :=
  match v with
  | S754_nan | S754_infinity _ => true
  | S754_zero _ | S754_finite _ _ _ => false
  end.

Definition SFzero_or_nan (v : spec_float) : bool :=
  match v with
  | S754_nan | S754_zero _ => true
  | S754_infinity _ | S754_finite _ _ _ => false
  end.

(** ** All callbacks of the page *)

Inductive Event :=
| Results (f : Frame)
| StartClick (now : Z)
| StopClick.

Definition handle (e : Event) (s : App) : App :=
  match e with
  | Results f => deliver f s
  | StartClick now => startClick now s
  | StopClick => stopClick s
  end.

Definition handleAll (es : list Event) (s : App) : App :=
  fold_left (fun acc e => handle e acc) es s.

(** The alarm clip is set exactly in state DISTRACTED. *)
Definition alarmMatchesState (s : App) : Prop :=
  currentAudio s = None <-> focusState s <> DISTRACTED.

(** A frame without a face. *)
Definition noFace (f : Frame) : bool :=
  match frame_faces f with
  | [] => true
  | _ :: _ => false
  end.

(** The branch clock of the frames is in time order from [t] on. *)
Fixpoint inOrderFrom (t : Z) (fs : list Frame) : bool :=
  match fs with
  | [] => true
  | f :: fs' => (t <=? frame_now f) && inOrderFrom (frame_now f) fs'
  end.

(** The clock of [updateStats] never runs backwards from [t] on. *)
Fixpoint statsClockFrom (t : Z) (fs : list Frame) : bool :=
  match fs with
  | [] => true
  | f :: fs' => (t <=? frame_tStats f) && statsClockFrom (frame_tStats f) fs'
  end.

(** Time of the last frame of a run, [t] when the run is empty. *)
Definition lastNow (t : Z) (fs : list Frame) : Z :=
  fold_left (fun _ f => frame_now f) fs t.

(** ** The first version of the script

    The first half of the source file is the earlier script: three
    states, no yaw, no reading bracket.  Its metric functions, its alarm
    functions and its click listeners are the ones above, letter for
    letter; what differs is modelled here.  The state variable is the
    same string, so [FocusState] is shared: no branch of this version
    assigns or tests READING. *)
Module V1.

Record Thresholds := mkThresholds {
  PITCH_DOWN : float;
  GAZE_DOWN : float;
  EAR_CLOSED : float;
  DELAY_MS : Z;
  SLEEP_DELAY_MS : Z
}.

Definition THRESHOLDS : Thresholds := {|
  PITCH_DOWN := (-12)%float;
  GAZE_DOWN := 0.65%float;
  EAR_CLOSED := 0.18%float;
  DELAY_MS := 1500;
  SLEEP_DELAY_MS := 2000
|}.

Record MetricSample := mkSample {
  pitch : float;
  gaze : float;
  ear : float
}.

Definition metrics (landmarks : LandmarkFrame) : MetricSample := {|
  pitch := calculatePitch landmarks;
  gaze := calculateGazeRatio landmarks;
  ear := calculateEAR landmarks
|}.

Definition isHeadDown (m : MetricSample) : bool :=
  (pitch m <? PITCH_DOWN THRESHOLDS)%float.

Definition isGazeDown (m : MetricSample) : bool :=
  (GAZE_DOWN THRESHOLDS <? gaze m)%float.

Definition isClosed (m : MetricSample) : bool :=
  (ear m <? EAR_CLOSED THRESHOLDS)%float.

Definition distractedSignal (m : MetricSample) : bool :=
  isHeadDown m || isGazeDown m || isClosed m.

Definition updateStats (now : Z) (s : App) : App :=
  if negb (isGuarding s) then s
  else
    let dt := now - lastUpdateTime s in
    let s := set_lastUpdateTime now s in
    match focusState s with
    | FOCUSED => set_totalFocusMs (totalFocusMs s + dt) s
    | _ => s
    end.

Definition focusLogic (distracted : bool) (now : Z) (coin : bool) (s : App) : App :=
  match focusState s with
  | FOCUSED =>
      if distracted then
        set_warningStartTime (Some now) (set_focusState WARNING s)
      else s
  | WARNING =>
      if negb distracted then
        set_warningStartTime None (set_focusState FOCUSED s)
      else if DELAY_MS THRESHOLDS <? now - toNumber (warningStartTime s) then
        playAlarm coin
          (set_distractionCount (distractionCount s + 1)
             (set_focusState DISTRACTED s))
      else s
  | DISTRACTED =>
      if negb distracted then stopAlarm (set_focusState FOCUSED s)
      else s
  | READING => s
  end.

Definition noFaceLogic (now : Z) (coin : bool) (s : App) : App :=
  if isGuarding s then
    match focusState s with
    | FOCUSED =>
        set_warningStartTime (Some now) (set_focusState WARNING s)
    | WARNING =>
        if DELAY_MS THRESHOLDS <? now - toNumber (warningStartTime s) then
          playAlarm coin
            (set_distractionCount (distractionCount s + 1)
               (set_focusState DISTRACTED s))
        else s
    | _ => s
    end
  else s.

Definition onResults (tStats now : Z) (coin : bool)
    (multiFaceLandmarks : list LandmarkFrame) (s : App) : App :=
  let s := updateStats tStats s in
  match multiFaceLandmarks with
  | landmarks :: _ =>
      focusLogic (distractedSignal (metrics landmarks)) now coin s
  | [] => noFaceLogic now coin s
  end.

Definition handle (e : Event) (s : App) : App :=
  match e with
  | Results f =>
      onResults (frame_tStats f) (frame_now f) (frame_coin f) (frame_faces f) s
  | StartClick now => startClick now s
  | StopClick => stopClick s
  end.

Definition handleAll (es : list Event) (s : App) : App :=
  fold_left (fun acc e => handle e acc) es s.

End V1.

(** The level face with the chin landmark raised to the height of the
    forehead landmark. *)
Definition flatFace : LandmarkFrame :=
  withLandmark 152 (point 0.5 0) faceLevel.

(** What the first version keeps true of the state. *)
Definition V1_invariant (s : App) : Prop :=
  focusState s <> READING
  /\ warningTimed s
  /\ alarmMatchesState s.

(** ** The focus-time display

    The text [updateStats] writes to the focus-time element.  The
    division by 1000 and by 60 is under [Math.floor], the remainder [%]
    takes the sign of the dividend; [toString] of an integer is its
    decimal numeral, with a minus sign when negative.

    Range.  The code divides binary64 numbers; [focusTimeText] divides
    integers.  The two agree while [totalFocusMs] is an integer of
    magnitude below 2^53 (some 285 000 years of milliseconds), where it is
    held exactly and the rounded quotient has the floor of the exact one.
    Beyond that the text of the code can differ from the one here, and
    nothing is stated about it. *)

Module Display.

Import Ascii String.

Definition toString (n : Z) : String.string :=
  DecimalString.NilZero.string_of_int (Z.to_int n).

Fixpoint repeatChar (n : nat) (c : Ascii.ascii) : String.string :=
  match n with
  | O => String.EmptyString
  | S n' => String.String c (repeatChar n' c)
  end.

(** [s.padStart(targetLength, c)] for a one-character pad string. *)
Definition padStart (targetLength : nat) (c : Ascii.ascii) (s : String.string)
    : String.string :=
  String.append (repeatChar (targetLength - String.length s) c) s.

Definition focusTimeText (totalFocusMs : Z) : String.string :=
  let totalSecs := totalFocusMs / 1000 in
  let mins := totalSecs / 60 in
  let secs := Z.rem totalSecs 60 in
  String.append (padStart 2 "0" (toString mins))
    (String.String ":" (padStart 2 "0" (toString secs))).

(** Reading the display back: the text before and after the first colon,
    each as a decimal numeral. *)
Fixpoint splitColon (s : String.string) : option (String.string * String.string) :=
  match s with
  | String.EmptyString => None
  | String.String c s' =>
      if Ascii.eqb c ":" then Some (String.EmptyString, s')
      else
        match splitColon s' with
        | Some (a, b) => Some (String.String c a, b)
        | None => None
        end
  end.

Definition numberOfText (s : String.string) : option Z :=
  option_map Z.of_int (DecimalString.NilZero.int_of_string s).

Definition clockOfText (s : String.string) : option (Z * Z) :=
  match splitColon s with
  | Some (a, b) =>
      match numberOfText a, numberOfText b with
      | Some m, Some sec => Some (m, sec)
      | _, _ => None
      end
  | None => None
  end.

Fixpoint noColon (s : String.string) : bool :=
  match s with
  | String.EmptyString => true
  | String.String c s' => negb (Ascii.eqb c ":") && noColon s'
  end.

End Display.

(** * Properties *)

(** ** The metrics of the example frames *)

Example metrics_faceLevel :
  metrics faceLevel = mkSample (-0) 0 0.5 (1 / 3)%float.
Proof. vm_compute. reflexivity. Qed.

Example pitch_faceSlumped : calculatePitch faceSlumped = (-25)%float.
Proof. vm_compute. reflexivity. Qed.

Example classify_faceLevel :
  distractedSignal (metrics faceLevel) = false /\ isReading (metrics faceLevel) = false.
Proof. vm_compute. auto. Qed.

Example classify_faceBowed :
  distractedSignal (metrics faceBowed) = false /\ isReading (metrics faceBowed) = true.
Proof. vm_compute. auto. Qed.

Example classify_faceSlumped :
  distractedSignal (metrics faceSlumped) = true /\ isReading (metrics faceSlumped) = false.
Proof. vm_compute. auto. Qed.

(** ** The alarm touches the audio fields only *)

Ltac alarm_cases s :=
  unfold playAlarm, stopAlarm, play, pause, paused;
  destruct (currentAudio s) as [[|]|];
  try destruct (pausedA s); try destruct (pausedB s);
  repeat match goal with |- context [if ?c then audioA else audioB] => destruct c end;
  reflexivity.

Lemma playAlarm_focusState coin s : focusState (playAlarm coin s) = focusState s.
Proof. alarm_cases s. Qed.

Lemma playAlarm_distractionCount coin s :
  distractionCount (playAlarm coin s) = distractionCount s.
Proof. alarm_cases s. Qed.

Lemma playAlarm_warningStartTime coin s :
  warningStartTime (playAlarm coin s) = warningStartTime s.
Proof. alarm_cases s. Qed.

Lemma playAlarm_totalFocusMs coin s : totalFocusMs (playAlarm coin s) = totalFocusMs s.
Proof. alarm_cases s. Qed.

Lemma playAlarm_lastUpdateTime coin s :
  lastUpdateTime (playAlarm coin s) = lastUpdateTime s.
Proof. alarm_cases s. Qed.

Lemma playAlarm_isGuarding coin s : isGuarding (playAlarm coin s) = isGuarding s.
Proof. alarm_cases s. Qed.

Lemma stopAlarm_focusState s : focusState (stopAlarm s) = focusState s.
Proof. alarm_cases s. Qed.

Lemma stopAlarm_distractionCount s : distractionCount (stopAlarm s) = distractionCount s.
Proof. alarm_cases s. Qed.

Lemma stopAlarm_warningStartTime s : warningStartTime (stopAlarm s) = warningStartTime s.
Proof. alarm_cases s. Qed.

Lemma stopAlarm_totalFocusMs s : totalFocusMs (stopAlarm s) = totalFocusMs s.
Proof. alarm_cases s. Qed.

Lemma stopAlarm_lastUpdateTime s : lastUpdateTime (stopAlarm s) = lastUpdateTime s.
Proof. alarm_cases s. Qed.

Lemma stopAlarm_isGuarding s : isGuarding (stopAlarm s) = isGuarding s.
Proof. alarm_cases s. Qed.

Lemma stopAlarm_currentAudio s : currentAudio (stopAlarm s) = None.
Proof.
  unfold stopAlarm. destruct (currentAudio s) as [c|] eqn:Hc; [|assumption].
  destruct c; reflexivity.
Qed.

(** After [playAlarm] a clip is current and playing. *)
Lemma playAlarm_sounding coin s :
  exists c, currentAudio (playAlarm coin s) = Some c
            /\ paused c (playAlarm coin s) = false.
Proof.
  unfold playAlarm.
  destruct (currentAudio s) as [c|] eqn:Hc.
  - destruct (paused c s) eqn:Hp.
    + destruct coin; [exists audioA | exists audioB]; split; reflexivity.
    + exists c. split; assumption.
  - destruct coin; [exists audioA | exists audioB]; split; reflexivity.
Qed.

Create Rewrite HintDb alarm.
#[export] Hint Rewrite
  playAlarm_focusState playAlarm_distractionCount playAlarm_warningStartTime
  playAlarm_totalFocusMs playAlarm_lastUpdateTime playAlarm_isGuarding
  stopAlarm_focusState stopAlarm_distractionCount stopAlarm_warningStartTime
  stopAlarm_totalFocusMs stopAlarm_lastUpdateTime stopAlarm_isGuarding
  stopAlarm_currentAudio : alarm.

(** ** [updateStats] leaves the state machine alone *)

Lemma updateStats_focusState now s : focusState (updateStats now s) = focusState s.
Proof.
  unfold updateStats. destruct (isGuarding s); simpl; [|reflexivity].
  destruct (focusState s) eqn:Hs; simpl; congruence.
Qed.

Lemma updateStats_distractionCount now s :
  distractionCount (updateStats now s) = distractionCount s.
Proof.
  unfold updateStats. destruct (isGuarding s); simpl; [|reflexivity].
  destruct (focusState s); reflexivity.
Qed.

Lemma updateStats_warningStartTime now s :
  warningStartTime (updateStats now s) = warningStartTime s.
Proof.
  unfold updateStats. destruct (isGuarding s); simpl; [|reflexivity].
  destruct (focusState s); reflexivity.
Qed.

Lemma updateStats_isGuarding now s : isGuarding (updateStats now s) = isGuarding s.
Proof.
  unfold updateStats. destruct (isGuarding s) eqn:Hg; simpl; [|assumption].
  destruct (focusState s); simpl; assumption.
Qed.

(** What one call adds to the focus time. *)
Lemma updateStats_totalFocusMs now s :
  isGuarding s = true ->
  totalFocusMs (updateStats now s) =
    totalFocusMs s +
    match focusState s with
    | FOCUSED | READING => now - lastUpdateTime s
    | WARNING | DISTRACTED => 0
    end
  /\ lastUpdateTime (updateStats now s) = now.
Proof.
  intros Hg. unfold updateStats. rewrite Hg. simpl.
  destruct (focusState s); simpl; split; lia.
Qed.

(** ** The focus logic, field by field *)

Ltac logic_cases s d r :=
  let Hs := fresh "Hs" in
  unfold focusLogic;
  destruct (focusState s) eqn:Hs, d, r; simpl;
  repeat match goal with |- context [if ?c then _ else _] => destruct c end;
  autorewrite with alarm; simpl.

Lemma focusLogic_totalFocusMs d r now coin s :
  totalFocusMs (focusLogic d r now coin s) = totalFocusMs s.
Proof.
  logic_cases s d r; reflexivity.
Qed.

Lemma focusLogic_lastUpdateTime d r now coin s :
  lastUpdateTime (focusLogic d r now coin s) = lastUpdateTime s.
Proof.
  logic_cases s d r; reflexivity.
Qed.

Lemma focusLogic_isGuarding d r now coin s :
  isGuarding (focusLogic d r now coin s) = isGuarding s.
Proof.
  logic_cases s d r; reflexivity.
Qed.

(** The counter moves on the WARNING-to-DISTRACTED transition and on no
    other. *)
Lemma focusLogic_distractionCount d r now coin s :
  distractionCount (focusLogic d r now coin s) =
    distractionCount s +
    match focusState s, focusState (focusLogic d r now coin s) with
    | WARNING, DISTRACTED => 1
    | _, _ => 0
    end.
Proof.
  logic_cases s d r; try rewrite Hs; lia.
Qed.

(** From FOCUSED or READING a distracted tick opens the grace period. *)
Lemma focusLogic_enter_warning r now coin s :
  focusState s = FOCUSED \/ focusState s = READING ->
  focusState (focusLogic true r now coin s) = WARNING
  /\ warningStartTime (focusLogic true r now coin s) = Some now
  /\ distractionCount (focusLogic true r now coin s) = distractionCount s.
Proof.
  intros [H|H]; unfold focusLogic; rewrite H; simpl; auto.
Qed.

(** In WARNING a distracted tick within the delay changes nothing. *)
Lemma focusLogic_warning_wait r now coin s :
  focusState s = WARNING ->
  now - toNumber (warningStartTime s) <= DELAY_MS THRESHOLDS ->
  focusLogic true r now coin s = s.
Proof.
  intros H Hle. unfold focusLogic. rewrite H. simpl negb. cbv iota.
  destruct (Z.ltb_spec (DELAY_MS THRESHOLDS) (now - toNumber (warningStartTime s))); [lia|].
  reflexivity.
Qed.

(** In WARNING a distracted tick past the delay raises the alarm. *)
Lemma focusLogic_warning_fire r now coin s :
  focusState s = WARNING ->
  DELAY_MS THRESHOLDS < now - toNumber (warningStartTime s) ->
  focusState (focusLogic true r now coin s) = DISTRACTED
  /\ distractionCount (focusLogic true r now coin s) = distractionCount s + 1
  /\ warningStartTime (focusLogic true r now coin s) = warningStartTime s
  /\ exists c, currentAudio (focusLogic true r now coin s) = Some c
               /\ paused c (focusLogic true r now coin s) = false.
Proof.
  intros H Hlt. unfold focusLogic. rewrite H. simpl negb. cbv iota.
  destruct (Z.ltb_spec (DELAY_MS THRESHOLDS) (now - toNumber (warningStartTime s))); [|lia].
  autorewrite with alarm. simpl. repeat split.
  apply playAlarm_sounding.
Qed.

(** In DISTRACTED a distracted tick changes nothing. *)
Lemma focusLogic_distracted_stay r now coin s :
  focusState s = DISTRACTED -> focusLogic true r now coin s = s.
Proof. intros H. unfold focusLogic. rewrite H. reflexivity. Qed.

(** A tick that is not distracted ends in READING or FOCUSED, by
    [isReading], with the counter as it was. *)
Lemma focusLogic_clear r now coin s :
  focusState (focusLogic false r now coin s) = (if r then READING else FOCUSED)
  /\ distractionCount (focusLogic false r now coin s) = distractionCount s.
Proof.
  unfold focusLogic.
  destruct (focusState s), r; simpl; autorewrite with alarm; auto.
Qed.

(** ** Classifier *)

Lemma slumping_forces_distracted m :
  isSlumpingDown m = true -> distractedSignal m = true.
Proof.
  intros H. unfold distractedSignal. rewrite H, orb_true_r. reflexivity.
Qed.

(** C6. A sample whose pitch is below [PITCH_MAX_DOWN] is slumping and is
    classified as distracted, whatever its yaw, gaze ratio and EAR. *)
Theorem slumping_is_distracted (m : MetricSample) :
  (pitch m <? PITCH_MAX_DOWN THRESHOLDS)%float = true ->
  isSlumpingDown m = true /\ distractedSignal m = true.
Proof.
  intros Hp. split; [exact Hp|].
  apply slumping_forces_distracted. exact Hp.
Qed.

Lemma slumping_is_distracted_witness :
  let m := mkSample (-25) 10 0.5 0.3 in
  (pitch m <? PITCH_MAX_DOWN THRESHOLDS)%float = true
  /\ isSlumpingDown m = true /\ distractedSignal m = true.
Proof.
  split; [reflexivity|].
  apply (slumping_is_distracted (mkSample (-25) 10 0.5 0.3)). reflexivity.
Defined.

(** ** The slumping scenario *)

Lemma onResults_face tStats now coin landmarks rest s :
  onResults tStats now coin (landmarks :: rest) s =
  focusLogic (distractedSignal (metrics landmarks)) (isReading (metrics landmarks))
    now coin (updateStats tStats s).
Proof. reflexivity. Qed.

Lemma pitch25_distracted landmarks :
  calculatePitch landmarks = (-25)%float ->
  distractedSignal (metrics landmarks) = true.
Proof.
  intros Hp. apply slumping_forces_distracted.
  unfold isSlumpingDown. simpl. rewrite Hp. reflexivity.
Qed.

(** C4. With the thresholds of [THRESHOLDS], from FOCUSED with counter 0:
    a frame with pitch -25 at t=0 gives WARNING with warning start 0; a
    second one at t=3000 leaves WARNING and the counter alone; a third one
    at t=4500 gives DISTRACTED, counter 1, and the alarm sounding. *)
Theorem slumping_scenario (f1 f2 f3 : LandmarkFrame) (c1 c2 c3 : bool) (s0 : App) :
  calculatePitch f1 = (-25)%float ->
  calculatePitch f2 = (-25)%float ->
  calculatePitch f3 = (-25)%float ->
  focusState s0 = FOCUSED ->
  distractionCount s0 = 0 ->
  let s1 := onResults 0 0 c1 [f1] s0 in
  let s2 := onResults 3000 3000 c2 [f2] s1 in
  let s3 := onResults 4500 4500 c3 [f3] s2 in
  (focusState s1 = WARNING /\ warningStartTime s1 = Some 0)
  /\ (focusState s2 = WARNING /\ distractionCount s2 = 0)
  /\ (focusState s3 = DISTRACTED /\ distractionCount s3 = 1
      /\ exists c, currentAudio s3 = Some c /\ paused c s3 = false).
Proof.
  intros H1 H2 H3 Hs Hc s1 s2 s3.
  assert (E1 : focusState s1 = WARNING /\ warningStartTime s1 = Some 0
               /\ distractionCount s1 = 0).
  { subst s1. rewrite onResults_face, (pitch25_distracted _ H1).
    destruct (focusLogic_enter_warning (isReading (metrics f1)) 0 c1
                (updateStats 0 s0)) as (Ha & Hb & Hd).
    - left. rewrite updateStats_focusState. exact Hs.
    - rewrite updateStats_distractionCount in Hd. repeat split; congruence. }
  destruct E1 as (E1s & E1w & E1c).
  assert (E2 : focusState s2 = WARNING /\ warningStartTime s2 = Some 0
               /\ distractionCount s2 = 0).
  { subst s2. rewrite onResults_face, (pitch25_distracted _ H2).
    rewrite focusLogic_warning_wait.
    - rewrite updateStats_focusState, updateStats_warningStartTime,
        updateStats_distractionCount. auto.
    - rewrite updateStats_focusState. exact E1s.
    - rewrite updateStats_warningStartTime, E1w. simpl. lia. }
  destruct E2 as (E2s & E2w & E2c).
  split; [auto|]. split; [auto|].
  subst s3. rewrite onResults_face, (pitch25_distracted _ H3).
  destruct (focusLogic_warning_fire (isReading (metrics f3)) 4500 c3
              (updateStats 4500 s2)) as (Ha & Hb & _ & Hd).
  - rewrite updateStats_focusState. exact E2s.
  - rewrite updateStats_warningStartTime, E2w. simpl. lia.
  - rewrite updateStats_distractionCount, E2c in Hb. auto.
Qed.

Lemma slumping_scenario_witness :
  let s1 := onResults 0 0 true [faceSlumped] fresh in
  let s2 := onResults 3000 3000 true [faceSlumped] s1 in
  let s3 := onResults 4500 4500 true [faceSlumped] s2 in
  calculatePitch faceSlumped = (-25)%float
  /\ focusState fresh = FOCUSED /\ distractionCount fresh = 0
  /\ (focusState s1 = WARNING /\ warningStartTime s1 = Some 0)
  /\ (focusState s2 = WARNING /\ distractionCount s2 = 0)
  /\ (focusState s3 = DISTRACTED /\ distractionCount s3 = 1
      /\ exists c, currentAudio s3 = Some c /\ paused c s3 = false).
Proof.
  split; [vm_compute; reflexivity|].
  split; [reflexivity|]. split; [reflexivity|].
  apply (slumping_scenario faceSlumped faceSlumped faceSlumped true true true fresh);
    vm_compute; reflexivity.
Defined.

(** The same run, evaluated: the third frame selects clip A (coin true)
    and starts it. *)
Example slumping_scenario_run :
  let s3 := deliverAll [mkFrame 0 0 true [faceSlumped];
                        mkFrame 3000 3000 true [faceSlumped];
                        mkFrame 4500 4500 true [faceSlumped]] fresh in
  focusState s3 = DISTRACTED /\ distractionCount s3 = 1
  /\ currentAudio s3 = Some audioA /\ pausedA s3 = false
  /\ totalFocusMs s3 = 0.
Proof. vm_compute. repeat split. Qed.

(** ** Statistics *)

Lemma noFaceLogic_fields now coin s :
  totalFocusMs (noFaceLogic now coin s) = totalFocusMs s
  /\ lastUpdateTime (noFaceLogic now coin s) = lastUpdateTime s
  /\ isGuarding (noFaceLogic now coin s) = isGuarding s.
Proof.
  unfold noFaceLogic. destruct (isGuarding s) eqn:Hg; [|auto].
  destruct (focusState s); simpl;
    repeat match goal with |- context [if ?c then _ else _] => destruct c end;
    autorewrite with alarm; simpl; auto.
Qed.

Lemma deliver_fields f s :
  totalFocusMs (deliver f s) = totalFocusMs (updateStats (frame_tStats f) s)
  /\ lastUpdateTime (deliver f s) = lastUpdateTime (updateStats (frame_tStats f) s)
  /\ isGuarding (deliver f s) = isGuarding s.
Proof.
  unfold deliver, onResults. destruct (frame_faces f).
  - destruct (noFaceLogic_fields (frame_now f) (frame_coin f)
                (updateStats (frame_tStats f) s)) as (H1 & H2 & H3).
    rewrite H1, H2, H3, updateStats_isGuarding. auto.
  - unfold onMetrics.
    rewrite focusLogic_totalFocusMs, focusLogic_lastUpdateTime,
      focusLogic_isGuarding, updateStats_isGuarding. auto.
Qed.

Lemma deliver_focused_step f s :
  isGuarding s = true ->
  focusState s = FOCUSED ->
  isGuarding (deliver f s) = true
  /\ lastUpdateTime (deliver f s) = frame_tStats f
  /\ totalFocusMs (deliver f s) = totalFocusMs s + (frame_tStats f - lastUpdateTime s)
  /\ (focusState (deliver f s) = FOCUSED ->
      distractionCount (deliver f s) = distractionCount s).
Proof.
  intros Hg Hs. unfold deliver, onResults.
  destruct (updateStats_totalFocusMs (frame_tStats f) s Hg) as (Ht & Hl).
  rewrite Hs in Ht.
  pose proof (updateStats_isGuarding (frame_tStats f) s) as Hg'.
  pose proof (updateStats_focusState (frame_tStats f) s) as Hs'.
  pose proof (updateStats_distractionCount (frame_tStats f) s) as Hc'.
  set (u := updateStats (frame_tStats f) s) in *.
  destruct (frame_faces f) as [|lm rest].
  - unfold noFaceLogic. rewrite Hg', Hg, Hs', Hs. simpl.
    repeat split; try assumption; try congruence.
  - unfold onMetrics.
    rewrite focusLogic_isGuarding, focusLogic_lastUpdateTime,
      focusLogic_totalFocusMs, focusLogic_distractionCount.
    rewrite Hs', Hs. repeat split; try congruence. lia.
Qed.

(** C7. Each call of [updateStats] in an active session adds the time
    elapsed since the previous call to [totalFocusMs] exactly when the
    state is FOCUSED or READING, and nothing otherwise: it adds [now] minus
    the time of the last update, records [now] as the new time of the last
    update in every state, and leaves the state and the counter alone; the
    rest of [onResults] touches neither the focus time nor the time of the
    last update.  Hence [N] frames spaced [dt] apart during which the state
    is FOCUSED throughout add [N * dt] and leave [distractionCount] alone,
    which from a session just started is [N * dt] and 0. *)
Theorem focus_time_accumulates (dt : Z) (fs : list Frame) (s0 : App) :
  isGuarding s0 = true ->
  evenlySpaced (lastUpdateTime s0) dt fs ->
  staysFocused fs s0 ->
  (forall s now,
     isGuarding s = true ->
     totalFocusMs (updateStats now s) =
       totalFocusMs s +
       match focusState s with
       | FOCUSED | READING => now - lastUpdateTime s
       | WARNING | DISTRACTED => 0
       end
     /\ lastUpdateTime (updateStats now s) = now
     /\ focusState (updateStats now s) = focusState s
     /\ distractionCount (updateStats now s) = distractionCount s)
  /\ (forall f s,
       isGuarding s = true ->
       totalFocusMs (deliver f s) =
         totalFocusMs s +
         match focusState s with
         | FOCUSED | READING => frame_tStats f - lastUpdateTime s
         | WARNING | DISTRACTED => 0
         end
       /\ lastUpdateTime (deliver f s) = frame_tStats f
       /\ isGuarding (deliver f s) = true)
  /\ totalFocusMs (deliverAll fs s0) = totalFocusMs s0 + Z.of_nat (length fs) * dt
  /\ lastUpdateTime (deliverAll fs s0) = lastUpdateTime s0 + Z.of_nat (length fs) * dt
  /\ distractionCount (deliverAll fs s0) = distractionCount s0
  /\ (totalFocusMs s0 = 0 -> distractionCount s0 = 0 ->
      totalFocusMs (deliverAll fs s0) = Z.of_nat (length fs) * dt
      /\ distractionCount (deliverAll fs s0) = 0).
Proof.
  intros Hg Hsp Hst.
  split.
  { intros s now Hs.
    destruct (updateStats_totalFocusMs now s Hs) as (Ht & Hl).
    rewrite updateStats_focusState, updateStats_distractionCount. auto. }
  split.
  { intros f s Hs.
    destruct (deliver_fields f s) as (Ft & Fl & Fg).
    destruct (updateStats_totalFocusMs (frame_tStats f) s Hs) as (Ht & Hl).
    rewrite Ft, Fl, Fg. auto. }
  assert (H : totalFocusMs (deliverAll fs s0) = totalFocusMs s0 + Z.of_nat (length fs) * dt
              /\ lastUpdateTime (deliverAll fs s0)
                 = lastUpdateTime s0 + Z.of_nat (length fs) * dt
              /\ distractionCount (deliverAll fs s0) = distractionCount s0).
  { revert s0 Hg Hsp Hst. induction fs as [|f fs IH]; intros s0 Hg Hsp Hst.
    - simpl. repeat split; lia.
    - destruct Hsp as (Hf & Hsp). destruct Hst as (Hs & Hst).
      destruct (deliver_focused_step f s0 Hg Hs) as (Hg1 & Hl1 & Ht1 & Hc1).
      change (deliverAll (f :: fs) s0) with (deliverAll fs (deliver f s0)).
      destruct (IH (deliver f s0)) as (IHt & IHl & IHc).
      + exact Hg1.
      + rewrite Hl1, Hf. exact Hsp.
      + exact Hst.
      + rewrite IHt, IHl, IHc, Ht1, Hl1, Hf.
        change (length (f :: fs)) with (S (length fs)).
        split; [lia|]. split; [lia|].
        apply Hc1. destruct fs; apply Hst. }
  destruct H as (Ht & Hl & Hc).
  split; [exact Ht|]. split; [exact Hl|]. split; [exact Hc|].
  intros Z0 C0. rewrite Ht, Hc, Z0, C0. split; reflexivity.
Qed.

Lemma focus_time_accumulates_witness :
  let fs := [mkFrame 1000 1000 true [faceLevel];
             mkFrame 2000 2000 true [faceLevel];
             mkFrame 3000 3000 true [faceLevel]] in
  isGuarding fresh = true
  /\ totalFocusMs (deliverAll fs fresh) = 3 * 1000
  /\ distractionCount (deliverAll fs fresh) = 0.
Proof.
  split; [reflexivity|].
  apply (focus_time_accumulates 1000
           [mkFrame 1000 1000 true [faceLevel];
            mkFrame 2000 2000 true [faceLevel];
            mkFrame 3000 3000 true [faceLevel]] fresh).
  - reflexivity.
  - simpl. repeat split.
  - vm_compute. repeat split.
  - reflexivity.
  - reflexivity.
Defined.

(** Time in WARNING or DISTRACTED is not counted: of the seven seconds of
    [busy] only the two before the slump are. *)
Example busy_focus_time :
  totalFocusMs busy = 2000
  /\ totalFocusMs (updateStats 9000 busy) = 2000
  /\ totalFocusMs (updateStats 9000 reading) = 9000.
Proof. vm_compute. repeat split. Qed.

(** ** Stop and start *)

Example busy_state :
  focusState busy = DISTRACTED /\ distractionCount busy = 1
  /\ totalFocusMs busy = 2000 /\ currentAudio busy = Some audioA
  /\ pausedA busy = false.
Proof. vm_compute. repeat split. Qed.

(** C2, as stated, fails: after stop and start the session [busy] still
    has its 2000 ms of focus time and its one distraction. *)
Lemma restart_keeps_stats : ~ restartResets busy 10000.
Proof.
  unfold restartResets. intros (_ & _ & Ht & _).
  vm_compute in Ht. discriminate Ht.
Qed.

(** C2, amended. Stop followed by start puts the state back to FOCUSED,
    leaves no current alarm clip (the clip that was current is paused) and
    guards again; [totalFocusMs] and [distractionCount] keep the values
    they had. *)
Theorem restart_resets_state_only (s : App) (t : Z) :
  let s' := startClick t (stopClick s) in
  focusState s' = FOCUSED
  /\ currentAudio s' = None
  /\ match currentAudio s with
     | Some c => paused c s' = true
     | None => True
     end
  /\ isGuarding s' = true
  /\ lastUpdateTime s' = t
  /\ totalFocusMs s' = totalFocusMs s
  /\ distractionCount s' = distractionCount s.
Proof.
  unfold startClick, stopClick, stopAlarm, play, pause. simpl.
  destruct (currentAudio s) as [[|]|] eqn:Hc; simpl; repeat split; exact Hc.
Qed.

(** ** A frame without a face *)

(** Outside READING a frame without a face does what a face frame
    classified distracted and not reading does. *)
Lemma noFace_as_distracted tStats now coin s :
  isGuarding s = true ->
  focusState s <> READING ->
  onResults tStats now coin [] s =
  focusLogic true false now coin (updateStats tStats s).
Proof.
  intros Hg Hs. unfold onResults, noFaceLogic, focusLogic.
  rewrite updateStats_isGuarding, Hg, updateStats_focusState.
  destruct (focusState s); try reflexivity. congruence.
Qed.

(** In READING it does not: the frame without a face leaves the state
    machine where it is, the distracted face frame opens the grace
    period. *)
Lemma noFace_in_READING tStats now coin s :
  focusState s = READING ->
  onResults tStats now coin [] s = updateStats tStats s
  /\ focusState (focusLogic true false now coin (updateStats tStats s)) = WARNING.
Proof.
  intros Hs. unfold onResults, noFaceLogic, focusLogic.
  rewrite updateStats_focusState, Hs. split; [|reflexivity].
  destruct (isGuarding (updateStats tStats s)); reflexivity.
Qed.

(** C1, at the input where the code departs from it. The session
    [reading] is guarding and in READING. A frame without a face at
    t=2000 leaves it in READING with no warning start, and the second of
    absence is counted as focus time; the slumped face frame (distracted,
    not reading) at the same time moves it to WARNING with warning start
    2000. *)
Theorem noFace_ignored_while_READING :
  isGuarding reading = true
  /\ focusState reading = READING
  /\ (distractedSignal (metrics faceSlumped) = true
      /\ isReading (metrics faceSlumped) = false)
  /\ (focusState (onResults 2000 2000 true [] reading) = READING
      /\ warningStartTime (onResults 2000 2000 true [] reading) = None
      /\ totalFocusMs (onResults 2000 2000 true [] reading) = 2000)
  /\ (focusState (onResults 2000 2000 true [faceSlumped] reading) = WARNING
      /\ warningStartTime (onResults 2000 2000 true [faceSlumped] reading) = Some 2000).
Proof. vm_compute. repeat split. Qed.

(** ** The warning start is set whenever the state is WARNING *)

Lemma focusLogic_warningTimed d r now coin s :
  warningTimed s -> warningTimed (focusLogic d r now coin s).
Proof.
  unfold warningTimed. intros Inv.
  logic_cases s d r; intros H; try discriminate H; try congruence; eauto.
Qed.

Lemma noFaceLogic_warningTimed now coin s :
  warningTimed s -> warningTimed (noFaceLogic now coin s).
Proof.
  unfold warningTimed, noFaceLogic. intros Inv.
  destruct (isGuarding s); [|exact Inv].
  destruct (focusState s) eqn:Hs; simpl;
    repeat match goal with |- context [if ?c then _ else _] => destruct c end;
    autorewrite with alarm; simpl; intros H; try discriminate H;
    try congruence; eauto.
Qed.

Lemma deliver_warningTimed f s : warningTimed s -> warningTimed (deliver f s).
Proof.
  intros Inv. unfold deliver, onResults.
  assert (Inv' : warningTimed (updateStats (frame_tStats f) s)).
  { unfold warningTimed.
    rewrite updateStats_focusState, updateStats_warningStartTime. exact Inv. }
  destruct (frame_faces f).
  - apply noFaceLogic_warningTimed, Inv'.
  - apply focusLogic_warningTimed, Inv'.
Qed.

Lemma deliverAll_warningTimed fs s : warningTimed s -> warningTimed (deliverAll fs s).
Proof.
  revert s. induction fs as [|f fs IH]; intros s Inv; [exact Inv|].
  apply IH, deliver_warningTimed, Inv.
Qed.

(** C10. In every state reached from a configuration with state FOCUSED
    and no warning start by any sequence of frames, with or without a
    face, state WARNING comes with a recorded warning start. *)
Theorem warning_has_start_time (fs : list Frame) (s0 : App) :
  focusState s0 = FOCUSED ->
  warningStartTime s0 = None ->
  focusState (deliverAll fs s0) = WARNING ->
  exists t, warningStartTime (deliverAll fs s0) = Some t.
Proof.
  intros Hs _. apply deliverAll_warningTimed.
  intros H. congruence.
Qed.

Lemma warning_has_start_time_witness :
  let fs := [mkFrame 1000 1000 true [faceLevel]; mkFrame 2000 2000 true []] in
  focusState fresh = FOCUSED
  /\ warningStartTime fresh = None
  /\ focusState (deliverAll fs fresh) = WARNING
  /\ exists t, warningStartTime (deliverAll fs fresh) = Some t.
Proof.
  split; [reflexivity|]. split; [reflexivity|]. split; [vm_compute; reflexivity|].
  apply (warning_has_start_time
           [mkFrame 1000 1000 true [faceLevel]; mkFrame 2000 2000 true []] fresh);
    vm_compute; reflexivity.
Defined.

(** ** The distraction counter counts long episodes *)

Example alternating_episodes :
  episodes alternating = [(0, 5000); (7000, 7000); (9000, 14000)]
  /\ longEpisodes alternating = 2
  /\ distractionCount (runTicks alternating fresh) = 2.
Proof. vm_compute. repeat split. Qed.

Lemma chronologicalFrom_chronological t ks :
  chronologicalFrom t ks = true -> chronological ks = true.
Proof.
  destruct ks as [|k ks]; simpl; [reflexivity|].
  intros H. apply andb_prop in H. apply H.
Qed.

Lemma countLong_cons e es :
  countLong (e :: es) = (if exceedsDelay e then 1 else 0) + countLong es.
Proof.
  unfold countLong. simpl. destruct (exceedsDelay e); simpl length; lia.
Qed.

Lemma exceedsDelay_spec t0 t1 :
  exceedsDelay (t0, t1) = true <-> DELAY_MS THRESHOLDS < t1 - t0.
Proof. unfold exceedsDelay. simpl fst. simpl snd. apply Z.ltb_lt. Qed.

(** When the episode under way ends, it has been counted exactly if it was
    long. *)
Lemma tracks_counted t0 t1 s :
  tracks (Some (t0, t1)) s ->
  counted s = if exceedsDelay (t0, t1) then 1 else 0.
Proof.
  intros (_ & [(Hs & _ & Hle) | (Hs & Hlt)]); unfold counted; rewrite Hs.
  - destruct (exceedsDelay (t0, t1)) eqn:He; [|reflexivity].
    apply exceedsDelay_spec in He. lia.
  - apply exceedsDelay_spec in Hlt. rewrite Hlt. reflexivity.
Qed.

Lemma tracks_none_counted s : tracks None s -> counted s = 0.
Proof. intros [H|H]; unfold counted; rewrite H; reflexivity. Qed.

(** One tick keeps the state machine in step with the episode. *)
Lemma tick_tracks k cur s :
  tracks cur s ->
  chronologicalAfter cur [k] = true ->
  let cur' :=
    if tick_distracted k then
      Some (match cur with Some e => fst e | None => tick_now k end, tick_now k)
    else None in
  tracks cur' (tick k s)
  /\ distractionCount (tick k s) + counted s =
     distractionCount s + counted (tick k s)
     + (if tick_distracted k then 0 else counted s).
Proof.
  intros Ht Hc. unfold tick.
  destruct k as [now d r coin]. simpl tick_distracted. simpl tick_now.
  simpl tick_reading. simpl tick_coin.
  destruct d.
  - destruct cur as [[t0 t1]|].
    + simpl in Hc. rewrite andb_true_r in Hc. apply Z.leb_le in Hc.
      destruct Ht as (H01 & [(Hs & Hw & Hle) | (Hs & Hlt)]); simpl fst.
      * destruct (Z.lt_ge_cases (DELAY_MS THRESHOLDS) (now - t0)) as [Hfire|Hwait].
        -- destruct (focusLogic_warning_fire r now coin s Hs) as (Ha & Hb & _).
           { rewrite Hw. exact Hfire. }
           split.
           ++ split; [lia|]. right. split; assumption.
           ++ rewrite Hb. unfold counted. rewrite Ha, Hs. lia.
        -- rewrite focusLogic_warning_wait.
           ++ split; [|lia]. split; [lia|]. left. auto.
           ++ exact Hs.
           ++ rewrite Hw. exact Hwait.
      * rewrite focusLogic_distracted_stay by exact Hs.
        split; [|lia]. split; [lia|]. right. split; [exact Hs|lia].
    + destruct (focusLogic_enter_warning r now coin s Ht) as (Ha & Hb & Hd).
      split.
      * split; [lia|]. left. repeat split; try assumption. simpl. lia.
      * rewrite Hd, (tracks_none_counted s Ht). unfold counted. rewrite Ha. lia.
  - destruct (focusLogic_clear r now coin s) as (Ha & Hb).
    split.
    + simpl. rewrite Ha. destruct r; auto.
    + rewrite Hb. replace (counted (focusLogic false r now coin s)) with 0; [lia|].
      unfold counted. rewrite Ha. destruct r; reflexivity.
Qed.

(** The counter after a run, from any state in step with an episode. *)
Lemma runTicks_count ks : forall cur s,
  tracks cur s ->
  chronologicalAfter cur ks = true ->
  distractionCount (runTicks ks s) + counted s =
  distractionCount s + countLong (episodesFrom cur ks).
Proof.
  induction ks as [|k ks IH]; intros cur s Ht Hc.
  - simpl. destruct cur as [[t0 t1]|].
    + rewrite countLong_cons, (tracks_counted t0 t1 s Ht).
      unfold countLong. simpl. lia.
    + rewrite (tracks_none_counted s Ht). unfold countLong. simpl. lia.
  - assert (Hk : chronologicalAfter cur [k] = true
                 /\ chronologicalFrom (tick_now k) ks = true).
    { destruct cur as [e|]; simpl in *.
      - apply andb_prop in Hc. destruct Hc as (H1 & H2).
        rewrite H1. auto.
      - auto. }
    destruct Hk as (Hk1 & Hk2).
    destruct (tick_tracks k cur s Ht Hk1) as (Ht' & Hcount).
    change (runTicks (k :: ks) s) with (runTicks ks (tick k s)).
    simpl episodesFrom.
    destruct (tick_distracted k).
    + specialize (IH _ _ Ht' Hk2). lia.
    + specialize (IH None (tick k s) Ht'
                    (chronologicalFrom_chronological _ _ Hk2)).
      destruct cur as [[t0 t1]|].
      * rewrite countLong_cons, <- (tracks_counted t0 t1 s Ht). lia.
      * rewrite (tracks_none_counted s Ht) in *. lia.
Qed.

(** C3. The counter moves by one on the WARNING-to-DISTRACTED transition
    and on no other tick; a distracted tick in DISTRACTED changes nothing;
    so after any time-ordered sequence of ticks from FOCUSED the counter
    has grown by the number of episodes (maximal runs of consecutive
    distracted ticks) that lasted longer than the debounce delay. *)
Theorem counter_counts_long_episodes (ks : list Tick) (s0 : App) :
  focusState s0 = FOCUSED ->
  chronological ks = true ->
  (forall k s,
     distractionCount (tick k s) =
       distractionCount s +
       match focusState s, focusState (tick k s) with
       | WARNING, DISTRACTED => 1
       | _, _ => 0
       end)
  /\ (forall k s, focusState s = DISTRACTED -> tick_distracted k = true ->
                  tick k s = s)
  /\ distractionCount (runTicks ks s0) = distractionCount s0 + longEpisodes ks.
Proof.
  intros Hs Hc. split; [|split].
  - intros k s. apply focusLogic_distractionCount.
  - intros [now d r coin] s H Hd. simpl in Hd. subst d.
    apply focusLogic_distracted_stay, H.
  - pose proof (runTicks_count ks None s0 (or_introl Hs) Hc) as H.
    unfold counted in H. rewrite Hs in H.
    unfold longEpisodes, episodes. unfold countLong in H. lia.
Qed.

Lemma counter_counts_long_episodes_witness :
  focusState fresh = FOCUSED
  /\ chronological alternating = true
  /\ distractionCount (runTicks alternating fresh) = 0 + 2.
Proof.
  split; [reflexivity|]. split; [reflexivity|].
  apply (counter_counts_long_episodes alternating fresh); reflexivity.
Defined.

(** ** Binary64 facts used by the metrics *)

Section Binary64.

Local Open Scope float_scope.

Lemma SFcompare_refl_finite s m e :
  SFcompare (S754_finite s m e) (S754_finite s m e) = Some Eq.
Proof.
  simpl. rewrite Z.compare_refl, Pos.compare_cont_refl. destruct s; reflexivity.
Qed.

Lemma SFcompare_Eq_finite s1 m1 e1 s2 m2 e2 :
  SFcompare (S754_finite s1 m1 e1) (S754_finite s2 m2 e2) = Some Eq ->
  s1 = s2 /\ m1 = m2 /\ e1 = e2.
Proof.
  simpl. destruct s1, s2; try discriminate.
  - destruct (Z.compare_spec e1 e2) as [He|He|He]; try discriminate.
    intros H. injection H as H. apply CompOpp_iff in H. simpl in H.
    apply Pos.compare_eq in H. auto.
  - destruct (Z.compare_spec e1 e2) as [He|He|He]; try discriminate.
    intros H. injection H as H. apply Pos.compare_eq in H. auto.
Qed.

(** The predicates of [PrimFloat], read off the shape. *)
Lemma is_nan_SF f :
  is_nan f = match Prim2SF f with S754_nan => true | _ => false end.
Proof.
  unfold is_nan. rewrite eqb_spec. unfold SFeqb.
  destruct (Prim2SF f) as [s|s| |s m e].
  - reflexivity.
  - destruct s; reflexivity.
  - reflexivity.
  - rewrite SFcompare_refl_finite. reflexivity.
Qed.

Lemma is_zero_SF f :
  is_zero f = match Prim2SF f with S754_zero _ => true | _ => false end.
Proof.
  unfold is_zero. rewrite eqb_spec.
  change (Prim2SF zero) with (S754_zero false).
  destruct (Prim2SF f) as [s|s| |s m e]; try reflexivity; destruct s; reflexivity.
Qed.

Lemma is_infinity_SF f :
  is_infinity f = match Prim2SF f with S754_infinity _ => true | _ => false end.
Proof.
  unfold is_infinity. rewrite eqb_spec, abs_spec.
  change (Prim2SF infinity) with (S754_infinity false).
  destruct (Prim2SF f) as [s|s| |s m e]; reflexivity.
Qed.

Lemma is_finite_SF f : is_finite f = negb (SFnonfinite (Prim2SF f)).
Proof.
  unfold is_finite. rewrite is_nan_SF, is_infinity_SF.
  destruct (Prim2SF f); reflexivity.
Qed.

(** [a - b] for [a === b]: a zero, or NaN when both are the same
    infinity. *)
Lemma SFsub_eq v w :
  SFeqb v w = true -> SFzero_or_nan (SF64sub v w) = true.
Proof.
  unfold SFeqb. destruct (SFcompare v w) as [[| |]|] eqn:Hc; try discriminate.
  intros _.
  destruct v as [sv|sv| |sv mv ev], w as [sw|sw| |sw mw ew];
    try (simpl in Hc; discriminate);
    try (simpl in Hc; destruct sv; discriminate);
    try (simpl in Hc; destruct sw; discriminate).
  - destruct sv, sw; reflexivity.
  - simpl in Hc. destruct sv, sw; try discriminate; reflexivity.
  - apply SFcompare_Eq_finite in Hc. destruct Hc as (-> & -> & ->).
    unfold SF64sub, SFsub. rewrite Z.sub_diag. reflexivity.
Qed.

Lemma sub_eq a b : (a =? b) = true -> SFzero_or_nan (Prim2SF (a - b)) = true.
Proof. rewrite eqb_spec, sub_spec. apply SFsub_eq. Qed.

(** The same for a finite [a]: a zero. *)
Lemma sub_eq_finite a b :
  (a =? b) = true -> is_finite a = true -> is_zero (a - b) = true.
Proof.
  rewrite eqb_spec, is_finite_SF, is_zero_SF, sub_spec.
  unfold SFeqb. destruct (SFcompare (Prim2SF a) (Prim2SF b)) as [[| |]|] eqn:Hc;
    try discriminate.
  intros _.
  destruct (Prim2SF a) as [sv|sv| |sv mv ev], (Prim2SF b) as [sw|sw| |sw mw ew];
    try discriminate;
    try (simpl in Hc; destruct sv; discriminate);
    try (simpl in Hc; destruct sw; discriminate).
  - intros _. destruct sv, sw; reflexivity.
  - intros _. apply SFcompare_Eq_finite in Hc. destruct Hc as (-> & -> & ->).
    unfold SF64sub, SFsub. rewrite Z.sub_diag. reflexivity.
Qed.

Lemma abs_of_zero a : is_zero a = true -> (abs a =? 0) = true.
Proof.
  rewrite is_zero_SF, eqb_spec, abs_spec.
  change (Prim2SF 0) with (S754_zero false).
  destruct (Prim2SF a); try discriminate. reflexivity.
Qed.

(** Dividing by a zero or by NaN never gives a finite number. *)
Lemma SFdiv_by_zero_or_nan v w :
  SFzero_or_nan w = true -> SFnonfinite (SF64div v w) = true.
Proof. destruct v, w; try discriminate; reflexivity. Qed.

(** Infinities and NaN stay so through [+] and through [/ 2]. *)
Lemma SFadd_nonfinite_l v w :
  SFnonfinite v = true -> SFnonfinite (SF64add v w) = true.
Proof.
  destruct v as [s|s| |s m e], w as [s'|s'| |s' m' e']; try discriminate;
    try reflexivity; destruct s, s'; reflexivity.
Qed.

Lemma SFadd_nonfinite_r v w :
  SFnonfinite w = true -> SFnonfinite (SF64add v w) = true.
Proof.
  destruct v as [s|s| |s m e], w as [s'|s'| |s' m' e']; try discriminate;
    try reflexivity; destruct s, s'; reflexivity.
Qed.

Lemma halve_nonfinite a :
  SFnonfinite (Prim2SF a) = true -> is_finite (a / 2) = false.
Proof.
  rewrite is_finite_SF, div_spec.
  change (Prim2SF 2) with (S754_finite false 4503599627370496 (-51)).
  destruct (Prim2SF a); try discriminate; reflexivity.
Qed.

(** [Math.hypot] of two differences of equal coordinates, and twice it. *)
Lemma hypot_zero_or_nan a b :
  SFzero_or_nan (Prim2SF a) = true -> SFzero_or_nan (Prim2SF b) = true ->
  SFzero_or_nan (Prim2SF (2.0 * hypot a b)) = true.
Proof.
  intros Ha Hb. unfold hypot.
  rewrite !is_infinity_SF, !is_nan_SF, !is_zero_SF.
  destruct (Prim2SF a); try discriminate; destruct (Prim2SF b); try discriminate;
    reflexivity.
Qed.

End Binary64.

(** ** Degenerate frames *)

(** C8. When the two outer eye corners have equal (finite) x-coordinates,
    [calculateYaw] returns 0 and does not divide by the zero span. *)
Theorem yaw_degenerate_is_zero (landmarks : LandmarkFrame) :
  (x (landmarks 33%N) =? x (landmarks 263%N))%float = true ->
  is_finite (x (landmarks 33%N)) = true ->
  calculateYaw landmarks = 0%float.
Proof.
  intros Heq Hfin. unfold calculateYaw.
  rewrite (abs_of_zero _ (sub_eq_finite _ _ Heq Hfin)). reflexivity.
Qed.

Lemma yaw_degenerate_is_zero_witness :
  (x (edgeOn 33%N) =? x (edgeOn 263%N))%float = true
  /\ is_finite (x (edgeOn 33%N)) = true
  /\ calculateYaw edgeOn = 0%float.
Proof.
  split; [reflexivity|]. split; [reflexivity|].
  apply (yaw_degenerate_is_zero edgeOn); reflexivity.
Defined.

(** The guard tests the span against 0 and nothing else: with both
    corners at x = Infinity the span is NaN and so is the yaw. *)
Example yaw_infinite_corners :
  calculateYaw (withLandmark 33 (point infinity 0.25)
                  (withLandmark 263 (point infinity 0.25) faceLevel)) = nan.
Proof. vm_compute. reflexivity. Qed.

(** Without the guard the frame [edgeOn] would give 0 / 0. *)
Example edgeOn_unguarded :
  let nose := edgeOn 1%N in
  let l := edgeOn 33%N in
  let r := edgeOn 263%N in
  ((abs (x nose - x l) - abs (x nose - x r)) / abs (x l - x r) * 90)%float = nan.
Proof. vm_compute. reflexivity. Qed.

Lemma gaze_left_lids_meet landmarks :
  lidsMeet landmarks 159 145 = true ->
  is_finite (calculateGazeRatio landmarks) = false.
Proof.
  unfold lidsMeet, calculateGazeRatio. intros H.
  apply halve_nonfinite. rewrite add_spec. apply SFadd_nonfinite_l.
  rewrite div_spec. apply SFdiv_by_zero_or_nan, sub_eq, H.
Qed.

Lemma gaze_right_lids_meet landmarks :
  lidsMeet landmarks 386 374 = true ->
  is_finite (calculateGazeRatio landmarks) = false.
Proof.
  unfold lidsMeet, calculateGazeRatio. intros H.
  apply halve_nonfinite. rewrite add_spec. apply SFadd_nonfinite_r.
  rewrite div_spec. apply SFdiv_by_zero_or_nan, sub_eq, H.
Qed.

(** C9. [calculateGazeRatio] divides by the eyelid span unguarded: on the
    frame [shutLid], whose left lids are at the same height, the division
    by zero is taken and the result is Infinity; and the result is a
    finite number only for frames where neither eye's lids meet. *)
Theorem gaze_ratio_unguarded :
  (lidsMeet shutLid 159 145 = true
   /\ calculateGazeRatio shutLid = infinity)
  /\ (forall landmarks,
        is_finite (calculateGazeRatio landmarks) = true ->
        lidsMeet landmarks 159 145 = false
        /\ lidsMeet landmarks 386 374 = false).
Proof.
  split; [split; vm_compute; reflexivity|].
  intros landmarks Hfin. split.
  - destruct (lidsMeet landmarks 159 145) eqn:H; [|reflexivity].
    rewrite (gaze_left_lids_meet _ H) in Hfin. discriminate Hfin.
  - destruct (lidsMeet landmarks 386 374) eqn:H; [|reflexivity].
    rewrite (gaze_right_lids_meet _ H) in Hfin. discriminate Hfin.
Qed.

Lemma eyeEAR_zero_width landmarks p1 p2 p3 p4 p5 p6 :
  zeroWidth landmarks p1 p4 = true ->
  SFnonfinite (Prim2SF (eyeEAR landmarks p1 p2 p3 p4 p5 p6)) = true.
Proof.
  unfold zeroWidth, eyeEAR. intros H. apply andb_prop in H. destruct H as (Hx & Hy).
  rewrite div_spec. apply SFdiv_by_zero_or_nan.
  apply hypot_zero_or_nan; apply sub_eq; assumption.
Qed.

(** C5, as stated, fails: on [pinchedEye] the left eye has zero width and
    the EAR is Infinity. *)
Lemma ear_zero_width_not_handled : ~ earDefinedAt pinchedEye.
Proof.
  unfold earDefinedAt. intros H.
  assert (E : is_finite (calculateEAR pinchedEye) = false) by (vm_compute; reflexivity).
  rewrite H in E; [discriminate E|]. vm_compute. reflexivity.
Qed.

(** C5, amended. [calculateEAR] has no guard: for every frame in which
    the two corner landmarks of an eye coincide, the division by the zero
    width is taken and the EAR returned is Infinity or NaN. *)
Theorem ear_zero_width_unguarded (landmarks : LandmarkFrame) :
  zeroWidth landmarks 33 133 || zeroWidth landmarks 362 263 = true ->
  is_finite (calculateEAR landmarks) = false.
Proof.
  intros H. unfold calculateEAR.
  change 2.0%float with 2%float. apply halve_nonfinite. rewrite add_spec.
  apply orb_prop in H. destruct H as [H|H].
  - apply SFadd_nonfinite_l, eyeEAR_zero_width, H.
  - apply SFadd_nonfinite_r, eyeEAR_zero_width, H.
Qed.

Lemma ear_zero_width_unguarded_witness :
  zeroWidth pinchedEye 33 133 || zeroWidth pinchedEye 362 263 = true
  /\ is_finite (calculateEAR pinchedEye) = false.
Proof.
  split; [vm_compute; reflexivity|].
  apply (ear_zero_width_unguarded pinchedEye). vm_compute. reflexivity.
Defined.

(** Where the Infinity goes: the classifier compares it with
    [EAR_CLOSED] and finds the eyes open. *)
Example pinchedEye_classified :
  calculateEAR pinchedEye = infinity
  /\ isClosed (metrics pinchedEye) = false
  /\ distractedSignal (metrics pinchedEye) = false.
Proof. vm_compute. repeat split. Qed.

(** * Further properties of the code *)

(** ** Comparisons of binary64 values *)

Section Binary64Order.

Local Open Scope float_scope.

Lemma SFcompare_antisym v w :
  SFcompare w v =
  match SFcompare v w with
  | Some c => Some (CompOpp c)
  | None => None
  end.
Proof.
  destruct v as [s|s| |s m e], w as [s'|s'| |s' m' e']; simpl;
    try reflexivity; try (destruct s; reflexivity);
    try (destruct s'; reflexivity); try (destruct s, s'; reflexivity).
  destruct s, s'; try reflexivity;
    rewrite (Z.compare_antisym e e'); destruct (e ?= e')%Z; simpl; try reflexivity;
    rewrite (Pos.compare_cont_antisym m m' Eq); simpl;
    destruct (Pos.compare_cont Eq m m'); reflexivity.
Qed.

(** [a < b] excludes [b <= a]. *)
Lemma ltb_leb_false a b : (a <? b) = true -> (b <=? a) = false.
Proof.
  rewrite ltb_spec, leb_spec. unfold SFltb, SFleb.
  rewrite (SFcompare_antisym (Prim2SF a) (Prim2SF b)).
  destruct (SFcompare (Prim2SF a) (Prim2SF b)) as [[| |]|]; simpl;
    intros H; try discriminate H; reflexivity.
Qed.

(** Every comparison with NaN is false. *)
Lemma ltb_nan_l a b : is_nan a = true -> (a <? b) = false.
Proof.
  rewrite is_nan_SF, ltb_spec. unfold SFltb.
  destruct (Prim2SF a); try discriminate. reflexivity.
Qed.

Lemma ltb_nan_r a b : is_nan b = true -> (a <? b) = false.
Proof.
  rewrite is_nan_SF, ltb_spec. unfold SFltb.
  destruct (Prim2SF b); try discriminate. destruct (Prim2SF a); reflexivity.
Qed.

Lemma is_nan_abs a : is_nan (abs a) = is_nan a.
Proof. rewrite !is_nan_SF, abs_spec. destruct (Prim2SF a); reflexivity. Qed.

End Binary64Order.

(** ** Classifier *)

(** The last disjunct of [distractedSignal] never decides: a bowed head
    that is not reading is turned or has closed eyes. *)
Lemma distractedSignal_three m :
  distractedSignal m = isHeadTurned m || isClosed m || isSlumpingDown m.
Proof.
  unfold distractedSignal, isReading.
  destruct (isBowingToRead m), (isHeadTurned m), (isClosed m),
    (isSlumpingDown m), (isGazeDown m); reflexivity.
Qed.

(** X1. The gaze ratio has no part in the classification: two samples
    that differ in the gaze ratio only get the same [distractedSignal] and
    the same [isReading]. *)
Theorem gaze_never_decides (p yw e g1 g2 : float) :
  distractedSignal (mkSample p yw g1 e) = distractedSignal (mkSample p yw g2 e)
  /\ isReading (mkSample p yw g1 e) = isReading (mkSample p yw g2 e).
Proof.
  split; [|reflexivity].
  rewrite !distractedSignal_three. reflexivity.
Qed.

Lemma bowing_not_slumping m : isBowingToRead m = true -> isSlumpingDown m = false.
Proof.
  unfold isBowingToRead, isSlumpingDown. intros H.
  apply andb_prop in H. destruct H as (_ & H).
  destruct (pitch m <? PITCH_MAX_DOWN THRESHOLDS)%float eqn:Hl; [|reflexivity].
  apply ltb_leb_false in Hl. congruence.
Qed.

Lemma reading_not_distracted m : isReading m = true -> distractedSignal m = false.
Proof.
  intros H. rewrite distractedSignal_three.
  unfold isReading in H.
  apply andb_prop in H. destruct H as (H & Hc).
  apply andb_prop in H. destruct H as (Hb & Ht).
  rewrite (bowing_not_slumping m Hb).
  destruct (isHeadTurned m), (isClosed m); try discriminate; reflexivity.
Qed.

(** X2. No sample is both reading and distracted. *)
Theorem reading_excludes_distracted (m : MetricSample) :
  isReading m && distractedSignal m = false.
Proof.
  destruct (isReading m) eqn:H; [|reflexivity].
  rewrite (reading_not_distracted m H). reflexivity.
Qed.

(** X3. A turned head or closed eyes make a sample distracted and not
    reading, whatever its pitch and gaze ratio. *)
Theorem turned_or_closed_is_distracted (m : MetricSample) :
  isHeadTurned m || isClosed m = true ->
  distractedSignal m = true /\ isReading m = false.
Proof.
  intros H. rewrite distractedSignal_three. unfold isReading.
  destruct (isHeadTurned m), (isClosed m); try discriminate H;
    rewrite ?andb_false_r; auto.
Qed.

Lemma turned_or_closed_is_distracted_witness :
  let m := mkSample (-10) 60 0.5 0.3 in
  isHeadTurned m || isClosed m = true
  /\ distractedSignal m = true /\ isReading m = false.
Proof.
  split; [reflexivity|].
  apply (turned_or_closed_is_distracted (mkSample (-10) 60 0.5 0.3)). reflexivity.
Defined.

(** X4. A sample whose pitch, yaw and EAR are NaN passes every threshold
    test: it is neither distracted nor reading, i.e. FOCUSED. *)
Theorem nan_sample_is_focused (m : MetricSample) :
  is_nan (pitch m) = true ->
  is_nan (yaw m) = true ->
  is_nan (ear m) = true ->
  distractedSignal m = false /\ isReading m = false.
Proof.
  intros Hp Hy He.
  assert (Hs : isSlumpingDown m = false) by (apply ltb_nan_l, Hp).
  assert (Hb : isBowingToRead m = false).
  { unfold isBowingToRead. rewrite (ltb_nan_l _ _ Hp). reflexivity. }
  assert (Ht : isHeadTurned m = false).
  { apply ltb_nan_r. rewrite is_nan_abs. exact Hy. }
  assert (Hc : isClosed m = false) by (apply ltb_nan_l, He).
  rewrite distractedSignal_three. unfold isReading.
  rewrite Hs, Hb, Ht, Hc. auto.
Qed.

Lemma nan_sample_is_focused_witness :
  let m := mkSample nan nan 0.5 nan in
  is_nan (pitch m) = true /\ distractedSignal m = false /\ isReading m = false.
Proof.
  split; [reflexivity|].
  apply (nan_sample_is_focused (mkSample nan nan 0.5 nan)); reflexivity.
Defined.

(** ** An upright head *)

Section Upright.

Local Open Scope float_scope.

(** At or above -2 is not below -20. *)
Lemma above_min_not_below_max p :
  (PITCH_MIN_DOWN THRESHOLDS <=? p) = true ->
  (p <? PITCH_MAX_DOWN THRESHOLDS) = false.
Proof.
  rewrite leb_spec, ltb_spec. unfold SFleb, SFltb.
  change (Prim2SF (PITCH_MIN_DOWN THRESHOLDS))
    with (S754_finite true 4503599627370496 (-51)).
  change (Prim2SF (PITCH_MAX_DOWN THRESHOLDS))
    with (S754_finite true 5629499534213120 (-48)).
  destruct (Prim2SF p) as [s|s| |s m e]; try reflexivity.
  - destruct s; [discriminate|reflexivity].
  - destruct s; [|reflexivity].
    cbn [SFcompare].
    destruct (Z.compare_spec (-51) e) as [He|He|He]; intros H.
    + subst e. reflexivity.
    + discriminate H.
    + destruct (Z.compare_spec e (-48)) as [He'|He'|He']; try reflexivity; lia.
Qed.

(** X21. A sample with the pitch at or above [PITCH_MIN_DOWN], the head
    not turned and the eyes not closed is neither distracted nor
    reading. *)
Theorem upright_is_focused (m : MetricSample) :
  (PITCH_MIN_DOWN THRESHOLDS <=? pitch m) = true ->
  isHeadTurned m = false ->
  isClosed m = false ->
  distractedSignal m = false /\ isReading m = false.
Proof.
  intros Hp Ht Hc.
  assert (Hb : isBowingToRead m = false).
  { unfold isBowingToRead.
    destruct (pitch m <? PITCH_MIN_DOWN THRESHOLDS) eqn:Hl; [|reflexivity].
    apply ltb_leb_false in Hl. congruence. }
  rewrite distractedSignal_three. unfold isReading, isSlumpingDown.
  rewrite (above_min_not_below_max _ Hp), Hb, Ht, Hc. auto.
Qed.

Lemma upright_is_focused_witness :
  let m := metrics faceLevel in
  (PITCH_MIN_DOWN THRESHOLDS <=? pitch m) = true
  /\ distractedSignal m = false /\ isReading m = false.
Proof.
  split; [vm_compute; reflexivity|].
  apply (upright_is_focused (metrics faceLevel)); vm_compute; reflexivity.
Defined.

End Upright.

(** ** Metrics *)

Section MetricEdges.

Local Open Scope float_scope.

Lemma SFmul_nonfinite_by_finite v s m e :
  SFnonfinite v = true -> SFnonfinite (SF64mul v (S754_finite s m e)) = true.
Proof. destruct v; try discriminate; reflexivity. Qed.

(** X5. [calculatePitch] divides by the forehead-to-chin span unguarded:
    when the two landmarks are at the same height the pitch is Infinity or
    NaN. *)
Theorem pitch_zero_span_unguarded (landmarks : LandmarkFrame) :
  (y (landmarks 152%N) =? y (landmarks 10%N)) = true ->
  is_finite (calculatePitch landmarks) = false.
Proof.
  intros H. unfold calculatePitch.
  rewrite is_finite_SF, mul_spec.
  change (Prim2SF (-90)) with (S754_finite true 6333186975989760 (-46)).
  rewrite SFmul_nonfinite_by_finite; [reflexivity|].
  rewrite div_spec. apply SFdiv_by_zero_or_nan, sub_eq, H.
Qed.

Lemma pitch_zero_span_unguarded_witness :
  (y (flatFace 152%N) =? y (flatFace 10%N)) = true
  /\ is_finite (calculatePitch flatFace) = false.
Proof.
  split; [reflexivity|].
  apply (pitch_zero_span_unguarded flatFace). reflexivity.
Defined.

(** What the state machine makes of it: on [flatFace] the pitch is
    -Infinity, which is below every threshold. *)
Example flatFace_classified :
  calculatePitch flatFace = neg_infinity
  /\ distractedSignal (metrics flatFace) = true.
Proof. vm_compute. split; reflexivity. Qed.

(** X6. A nose tip equally far from the two outer eye corners gives yaw
    zero (+0 or -0), whatever the span between the corners. *)
Theorem yaw_frontal_is_zero (landmarks : LandmarkFrame) :
  let nose := landmarks 1%N in
  let leftEyeOuter := landmarks 33%N in
  let rightEyeOuter := landmarks 263%N in
  let leftDist := abs (x nose - x leftEyeOuter) in
  let rightDist := abs (x nose - x rightEyeOuter) in
  (leftDist =? rightDist) = true ->
  is_finite leftDist = true ->
  is_nan (x leftEyeOuter - x rightEyeOuter) = false ->
  is_zero (calculateYaw landmarks) = true.
Proof.
  intros nose l r leftDist rightDist Heq Hfin Hspan.
  unfold calculateYaw. fold nose l r. fold leftDist rightDist.
  destruct (abs (x l - x r) =? 0) eqn:Hz; [reflexivity|].
  pose proof (sub_eq_finite _ _ Heq Hfin) as Hd.
  rewrite is_zero_SF in Hd. rewrite is_zero_SF, mul_spec, div_spec.
  rewrite eqb_spec, abs_spec in Hz. rewrite is_nan_SF in Hspan.
  change (Prim2SF 0) with (S754_zero false) in Hz.
  change (Prim2SF 90) with (S754_finite false 6333186975989760 (-46)).
  rewrite abs_spec.
  destruct (Prim2SF (leftDist - rightDist)); try discriminate Hd.
  destruct (Prim2SF (x l - x r)); try discriminate; reflexivity.
Qed.

Lemma yaw_frontal_is_zero_witness :
  (abs (x (faceLevel 1%N) - x (faceLevel 33%N))
     =? abs (x (faceLevel 1%N) - x (faceLevel 263%N))) = true
  /\ is_zero (calculateYaw faceLevel) = true.
Proof.
  split; [reflexivity|].
  apply (yaw_frontal_is_zero faceLevel); reflexivity.
Defined.

End MetricEdges.

(** ** The alarm *)

Lemma updateStats_currentAudio now s : currentAudio (updateStats now s) = currentAudio s.
Proof.
  unfold updateStats. destruct (isGuarding s); simpl; [|reflexivity].
  destruct (focusState s); reflexivity.
Qed.

Lemma playAlarm_from_silence coin s :
  currentAudio s = None ->
  currentAudio (playAlarm coin s) = Some (if coin then audioA else audioB).
Proof. intros H. unfold playAlarm. rewrite H. destruct coin; reflexivity. Qed.

(** X7. While a clip is sounding a further [playAlarm] changes nothing:
    the alarm is neither restarted nor switched to the other clip. *)
Theorem playAlarm_idempotent (c1 c2 : bool) (s : App) :
  playAlarm c2 (playAlarm c1 s) = playAlarm c1 s.
Proof.
  unfold playAlarm at 2 3.
  destruct (currentAudio s) as [c|] eqn:Hc.
  - destruct (paused c s) eqn:Hp.
    + destruct c1; reflexivity.
    + unfold playAlarm. rewrite Hc, Hp. reflexivity.
  - destruct c1; reflexivity.
Qed.

(** X8. From silence (no current clip, both clips paused) starting the
    alarm and stopping it gives back the state unchanged. *)
Theorem playAlarm_stopAlarm_roundtrip (coin : bool) (s : App) :
  currentAudio s = None ->
  pausedA s = true ->
  pausedB s = true ->
  stopAlarm (playAlarm coin s) = s.
Proof.
  destruct s as [g st n fs lu tot ws ec ca pa pb]. simpl.
  intros -> -> ->. destruct coin; reflexivity.
Qed.

Lemma playAlarm_stopAlarm_roundtrip_witness :
  currentAudio fresh = None
  /\ stopAlarm (playAlarm true fresh) = fresh.
Proof.
  split; [reflexivity|].
  apply (playAlarm_stopAlarm_roundtrip true fresh); reflexivity.
Defined.

Lemma focusLogic_alarmMatchesState d r now coin s :
  alarmMatchesState s -> alarmMatchesState (focusLogic d r now coin s).
Proof.
  unfold alarmMatchesState. intros [H1 H2].
  unfold focusLogic.
  destruct (focusState s) eqn:Hs, d, r; simpl;
    repeat match goal with |- context [if ?c then _ else _] => destruct c end;
    autorewrite with alarm; simpl; rewrite ?Hs;
    try (split; [intros; discriminate | intros; apply H2; discriminate]);
    try (split; [intros; discriminate | intros; reflexivity]);
    try (split; [exact H1 | exact H2]).
  all: rewrite playAlarm_from_silence by (apply H2; discriminate).
  all: split; [intros H; discriminate H | intros H; exfalso; apply H; reflexivity].
Qed.

Lemma noFaceLogic_alarmMatchesState now coin s :
  alarmMatchesState s -> alarmMatchesState (noFaceLogic now coin s).
Proof.
  unfold alarmMatchesState. intros [H1 H2].
  unfold noFaceLogic. destruct (isGuarding s); [|split; assumption].
  destruct (focusState s) eqn:Hs; simpl;
    repeat match goal with |- context [if ?c then _ else _] => destruct c end;
    autorewrite with alarm; simpl; rewrite ?Hs;
    try (split; [intros; discriminate | intros; apply H2; discriminate]);
    try (split; [exact H1 | exact H2]).
  rewrite playAlarm_from_silence by (apply H2; discriminate).
  split; [intros H; discriminate H | intros H; exfalso; apply H; reflexivity].
Qed.

Lemma handle_alarmMatchesState e s :
  alarmMatchesState s -> alarmMatchesState (handle e s).
Proof.
  intros Inv. destruct e as [f|now|]; simpl.
  - unfold deliver, onResults.
    assert (Inv' : alarmMatchesState (updateStats (frame_tStats f) s)).
    { unfold alarmMatchesState.
      rewrite updateStats_currentAudio, updateStats_focusState. exact Inv. }
    destruct (frame_faces f).
    + apply noFaceLogic_alarmMatchesState, Inv'.
    + apply focusLogic_alarmMatchesState, Inv'.
  - unfold alarmMatchesState, startClick, play, pause. simpl. exact Inv.
  - unfold alarmMatchesState, stopClick. simpl.
    rewrite stopAlarm_currentAudio.
    split; [intros _; discriminate | reflexivity].
Qed.

(** X9. Through any sequence of result callbacks and clicks on start and
    stop, from the page as loaded, an alarm clip is current exactly when
    the state is DISTRACTED. *)
Theorem alarm_exactly_when_DISTRACTED (es : list Event) (t : Z) :
  currentAudio (handleAll es (initial t)) = None
  <-> focusState (handleAll es (initial t)) <> DISTRACTED.
Proof.
  assert (H : forall s, alarmMatchesState s -> alarmMatchesState (handleAll es s)).
  { induction es as [|e es IH]; intros s Inv; [exact Inv|].
    apply IH, handle_alarmMatchesState, Inv. }
  apply (H (initial t)). split; [intros _; discriminate | reflexivity].
Qed.

(** ** The counter *)

Lemma noFaceLogic_distractionCount now coin s :
  distractionCount (noFaceLogic now coin s) = distractionCount s
  \/ (focusState s = WARNING
      /\ focusState (noFaceLogic now coin s) = DISTRACTED
      /\ DELAY_MS THRESHOLDS < now - toNumber (warningStartTime s)
      /\ distractionCount (noFaceLogic now coin s) = distractionCount s + 1).
Proof.
  unfold noFaceLogic. destruct (isGuarding s); [|left; reflexivity].
  destruct (focusState s) eqn:Hs; try (left; reflexivity).
  destruct (Z.ltb_spec (DELAY_MS THRESHOLDS) (now - toNumber (warningStartTime s)));
    [|left; reflexivity].
  right. autorewrite with alarm. simpl. auto.
Qed.

Lemma focusLogic_count_step d r now coin s :
  distractionCount (focusLogic d r now coin s) = distractionCount s
  \/ (focusState s = WARNING
      /\ focusState (focusLogic d r now coin s) = DISTRACTED
      /\ DELAY_MS THRESHOLDS < now - toNumber (warningStartTime s)
      /\ distractionCount (focusLogic d r now coin s) = distractionCount s + 1).
Proof.
  unfold focusLogic.
  destruct (focusState s) eqn:Hs.
  - left. destruct d, r; reflexivity.
  - left. destruct d, r; reflexivity.
  - destruct d; simpl negb; cbv iota; [|left; destruct r; reflexivity].
    destruct (Z.ltb_spec (DELAY_MS THRESHOLDS) (now - toNumber (warningStartTime s)));
      [|left; reflexivity].
    right. autorewrite with alarm. simpl. auto.
  - left. destruct d, r; simpl; autorewrite with alarm; reflexivity.
Qed.

(** X10. No callback lowers the distraction counter, and one raises it,
    by one, only as a result callback that takes WARNING to DISTRACTED
    more than [DELAY_MS] after the warning start. *)
Theorem counter_steps (e : Event) (s : App) :
  distractionCount (handle e s) = distractionCount s
  \/ (exists f, e = Results f
      /\ focusState s = WARNING
      /\ focusState (handle e s) = DISTRACTED
      /\ DELAY_MS THRESHOLDS < frame_now f - toNumber (warningStartTime s)
      /\ distractionCount (handle e s) = distractionCount s + 1).
Proof.
  destruct e as [f|now|]; simpl.
  - unfold deliver, onResults.
    pose proof (updateStats_focusState (frame_tStats f) s) as Hs.
    pose proof (updateStats_distractionCount (frame_tStats f) s) as Hc.
    pose proof (updateStats_warningStartTime (frame_tStats f) s) as Hw.
    set (u := updateStats (frame_tStats f) s) in *.
    destruct (frame_faces f) as [|lm rest].
    + destruct (noFaceLogic_distractionCount (frame_now f) (frame_coin f) u)
        as [H|(H1 & H2 & H3 & H4)].
      * left. congruence.
      * right. exists f. rewrite <- Hs, <- Hw, <- Hc. auto.
    + unfold onMetrics.
      destruct (focusLogic_count_step (distractedSignal (metrics lm))
                  (isReading (metrics lm)) (frame_now f) (frame_coin f) u)
        as [H|(H1 & H2 & H3 & H4)].
      * left. congruence.
      * right. exists f. rewrite <- Hs, <- Hw, <- Hc. auto.
  - left. reflexivity.
  - left. unfold stopClick. simpl. autorewrite with alarm. reflexivity.
Qed.

(** ** Statistics and the guard flag *)

Lemma idle_updateStats now s : isGuarding s = false -> updateStats now s = s.
Proof. intros Hg. unfold updateStats. rewrite Hg. reflexivity. Qed.

Lemma idle_noFaceLogic now coin s : isGuarding s = false -> noFaceLogic now coin s = s.
Proof. intros Hg. unfold noFaceLogic. rewrite Hg. reflexivity. Qed.

Lemma stopClick_fields s :
  isGuarding (stopClick s) = false
  /\ focusState (stopClick s) = FOCUSED
  /\ currentAudio (stopClick s) = None
  /\ distractionCount (stopClick s) = distractionCount s
  /\ totalFocusMs (stopClick s) = totalFocusMs s.
Proof.
  unfold stopClick. simpl. autorewrite with alarm. simpl. repeat split.
Qed.

(** X11. While the session is not guarding, a result callback without a
    face changes nothing at all, and one with a face changes neither the
    focus time nor the time of the last update. *)
Theorem idle_session_keeps_stats (f : Frame) (s : App) :
  isGuarding s = false ->
  totalFocusMs (deliver f s) = totalFocusMs s
  /\ lastUpdateTime (deliver f s) = lastUpdateTime s
  /\ (if noFace f then deliver f s = s else True).
Proof.
  intros Hg.
  destruct (deliver_fields f s) as (H1 & H2 & _).
  rewrite (idle_updateStats _ _ Hg) in H1, H2.
  split; [exact H1|]. split; [exact H2|].
  unfold noFace, deliver, onResults. rewrite (idle_updateStats _ _ Hg).
  destruct (frame_faces f); [|exact I].
  apply idle_noFaceLogic, Hg.
Qed.

Lemma idle_session_keeps_stats_witness :
  isGuarding (stopClick busy) = false
  /\ totalFocusMs (deliver (mkFrame 9000 9000 true []) (stopClick busy))
     = totalFocusMs (stopClick busy).
Proof.
  split; [reflexivity|].
  apply (idle_session_keeps_stats (mkFrame 9000 9000 true []) (stopClick busy)).
  reflexivity.
Defined.

(** X12. A result callback that arrives after the stop click cannot
    raise the alarm or touch the statistics; it can, when it carries a
    face, move the state off FOCUSED. *)
Theorem late_frame_after_stop (f : Frame) (s : App) :
  let s' := deliver f (stopClick s) in
  currentAudio s' = None
  /\ focusState s' <> DISTRACTED
  /\ distractionCount s' = distractionCount s
  /\ totalFocusMs s' = totalFocusMs s
  /\ (if noFace f then focusState s' = FOCUSED else True).
Proof.
  intros s'.
  destruct (stopClick_fields s) as (Hg & Hf & Ha & Hc & Ht).
  destruct (deliver_fields f (stopClick s)) as (H1 & _ & _).
  rewrite (idle_updateStats _ _ Hg) in H1.
  subst s'. rewrite H1, Ht.
  unfold noFace. unfold deliver, onResults. rewrite (idle_updateStats _ _ Hg).
  set (k := stopClick s) in *.
  destruct (frame_faces f) as [|lm rest].
  - rewrite (idle_noFaceLogic _ _ _ Hg), Ha, Hf, Hc. repeat split. discriminate.
  - unfold onMetrics, focusLogic. rewrite Hf.
    destruct (distractedSignal (metrics lm)), (isReading (metrics lm)); simpl;
      rewrite ?Ha, ?Hc; repeat split; try discriminate; try assumption.
Qed.

Example late_frame_leaves_WARNING :
  focusState (deliver (mkFrame 9000 9000 true [faceSlumped]) (stopClick busy)) = WARNING.
Proof. vm_compute. reflexivity. Qed.

Lemma statsClockFrom_last t fs s :
  isGuarding s = true ->
  lastUpdateTime s = t ->
  statsClockFrom t fs = true ->
  0 <= totalFocusMs (deliverAll fs s) - totalFocusMs s
    <= lastUpdateTime (deliverAll fs s) - lastUpdateTime s.
Proof.
  revert t s. induction fs as [|f fs IH]; intros t s Hg Hl Hc.
  - simpl. lia.
  - simpl in Hc. apply andb_prop in Hc. destruct Hc as (H1 & H2).
    apply Z.leb_le in H1.
    change (deliverAll (f :: fs) s) with (deliverAll fs (deliver f s)).
    destruct (deliver_fields f s) as (Ft & Fl & Fg).
    destruct (updateStats_totalFocusMs (frame_tStats f) s Hg) as (Ut & Ul).
    rewrite Ut in Ft. rewrite Ul in Fl.
    specialize (IH (frame_tStats f) (deliver f s)).
    rewrite Fg in IH. specialize (IH Hg Fl H2).
    destruct (focusState s); lia.
Qed.

(** X13. In a guarding session whose [updateStats] clock does not run
    backwards, the focus time never decreases and grows by no more than
    the time that has passed between the updates. *)
Theorem focus_time_within_elapsed (fs : list Frame) (s : App) :
  isGuarding s = true ->
  statsClockFrom (lastUpdateTime s) fs = true ->
  0 <= totalFocusMs (deliverAll fs s) - totalFocusMs s
    <= lastUpdateTime (deliverAll fs s) - lastUpdateTime s.
Proof. intros Hg Hc. apply (statsClockFrom_last (lastUpdateTime s)); auto. Qed.

Lemma focus_time_within_elapsed_witness :
  let fs := [mkFrame 1000 1000 true [faceLevel];
             mkFrame 2000 2000 true [faceSlumped];
             mkFrame 7000 7000 true [faceSlumped]] in
  isGuarding fresh = true
  /\ 0 <= totalFocusMs (deliverAll fs fresh) - totalFocusMs fresh
       <= lastUpdateTime (deliverAll fs fresh) - lastUpdateTime fresh.
Proof.
  split; [reflexivity|].
  apply (focus_time_within_elapsed
           [mkFrame 1000 1000 true [faceLevel];
            mkFrame 2000 2000 true [faceSlumped];
            mkFrame 7000 7000 true [faceSlumped]] fresh); reflexivity.
Defined.

(** ** A reading posture *)

(** X14. A face frame classified as reading puts the state machine in
    READING from whatever state, leaves the counter alone and, when the
    alarm matched the state before, leaves no alarm clip current. *)
Theorem reading_frame_is_never_penalised
    (tStats now : Z) (coin : bool) (landmarks : LandmarkFrame)
    (rest : list LandmarkFrame) (s : App) :
  isReading (metrics landmarks) = true ->
  alarmMatchesState s ->
  let s' := onResults tStats now coin (landmarks :: rest) s in
  focusState s' = READING
  /\ distractionCount s' = distractionCount s
  /\ currentAudio s' = None.
Proof.
  intros Hr Inv s'. subst s'. rewrite onResults_face.
  rewrite Hr, (reading_not_distracted _ Hr).
  destruct (focusLogic_clear true now coin (updateStats tStats s)) as (H1 & H2).
  rewrite H1, H2, updateStats_distractionCount. split; [reflexivity|].
  split; [reflexivity|].
  assert (Inv' : alarmMatchesState (updateStats tStats s)).
  { unfold alarmMatchesState.
    rewrite updateStats_currentAudio, updateStats_focusState. exact Inv. }
  apply (focusLogic_alarmMatchesState false true now coin) in Inv'.
  apply Inv'. rewrite H1. discriminate.
Qed.

Lemma reading_frame_is_never_penalised_witness :
  let s' := onResults 8000 8000 true [faceBowed] busy in
  isReading (metrics faceBowed) = true
  /\ focusState busy = DISTRACTED
  /\ focusState s' = READING
  /\ distractionCount s' = distractionCount busy
  /\ currentAudio s' = None.
Proof.
  split; [vm_compute; reflexivity|]. split; [vm_compute; reflexivity|].
  apply (reading_frame_is_never_penalised 8000 8000 true faceBowed [] busy).
  - vm_compute. reflexivity.
  - unfold alarmMatchesState. vm_compute.
    split; [intros H; discriminate H | intros H; exfalso; apply H; reflexivity].
Defined.

(** ** A stretch without a face *)

Lemma deliver_noFace f s :
  noFace f = true ->
  deliver f s = noFaceLogic (frame_now f) (frame_coin f) (updateStats (frame_tStats f) s).
Proof.
  unfold noFace, deliver, onResults. destruct (frame_faces f); [reflexivity|discriminate].
Qed.

Lemma inOrderFrom_lastNow fs : forall t, inOrderFrom t fs = true -> t <= lastNow t fs.
Proof.
  induction fs as [|f fs IH]; intros t H; simpl in *; [lia|].
  apply andb_prop in H. destruct H as (H1 & H2). apply Z.leb_le in H1.
  specialize (IH _ H2). lia.
Qed.

Lemma noFaceRun_DISTRACTED fs : forall s,
  forallb noFace fs = true ->
  focusState s = DISTRACTED ->
  focusState (deliverAll fs s) = DISTRACTED
  /\ distractionCount (deliverAll fs s) = distractionCount s
  /\ warningStartTime (deliverAll fs s) = warningStartTime s.
Proof.
  induction fs as [|f fs IH]; intros s Hn Hs; [auto|].
  simpl in Hn. apply andb_prop in Hn. destruct Hn as (Hf & Hn).
  change (deliverAll (f :: fs) s) with (deliverAll fs (deliver f s)).
  assert (E : focusState (deliver f s) = DISTRACTED
              /\ distractionCount (deliver f s) = distractionCount s
              /\ warningStartTime (deliver f s) = warningStartTime s).
  { rewrite (deliver_noFace f s Hf). unfold noFaceLogic.
    rewrite updateStats_focusState, Hs.
    destruct (isGuarding (updateStats (frame_tStats f) s));
      rewrite updateStats_focusState, updateStats_distractionCount,
        updateStats_warningStartTime; auto. }
  destruct E as (E1 & E2 & E3).
  destruct (IH (deliver f s) Hn E1) as (I1 & I2 & I3).
  rewrite I1, I2, I3. auto.
Qed.

Lemma noFaceRun_WARNING fs : forall s t t0,
  isGuarding s = true ->
  focusState s = WARNING ->
  warningStartTime s = Some t0 ->
  t - t0 <= DELAY_MS THRESHOLDS ->
  forallb noFace fs = true ->
  inOrderFrom t fs = true ->
  let late := DELAY_MS THRESHOLDS <? lastNow t fs - t0 in
  focusState (deliverAll fs s) = (if late then DISTRACTED else WARNING)
  /\ distractionCount (deliverAll fs s) = distractionCount s + (if late then 1 else 0)
  /\ warningStartTime (deliverAll fs s) = Some t0.
Proof.
  induction fs as [|f fs IH]; intros s t t0 Hg Hs Hw Hle Hn Ho late.
  - subst late. cbn [lastNow deliverAll fold_left].
    destruct (Z.ltb_spec (DELAY_MS THRESHOLDS) (t - t0)); [lia|].
    repeat split; auto; lia.
  - simpl in Hn. apply andb_prop in Hn. destruct Hn as (Hf & Hn).
    simpl in Ho. apply andb_prop in Ho. destruct Ho as (Ho1 & Ho2).
    change (deliverAll (f :: fs) s) with (deliverAll fs (deliver f s)).
    change (lastNow t (f :: fs)) with (lastNow (frame_now f) fs) in late.
    pose proof (inOrderFrom_lastNow fs _ Ho2) as Hmono.
    rewrite (deliver_noFace f s Hf).
    pose proof (updateStats_isGuarding (frame_tStats f) s) as Ug.
    pose proof (updateStats_focusState (frame_tStats f) s) as Us.
    pose proof (updateStats_warningStartTime (frame_tStats f) s) as Uw.
    pose proof (updateStats_distractionCount (frame_tStats f) s) as Uc.
    set (u := updateStats (frame_tStats f) s) in *.
    unfold noFaceLogic. rewrite Ug, Hg, Us, Hs, Uw, Hw. simpl toNumber.
    destruct (Z.ltb_spec (DELAY_MS THRESHOLDS) (frame_now f - t0)) as [Hfire|Hwait].
    + destruct (noFaceRun_DISTRACTED fs
                  (playAlarm (frame_coin f)
                     (set_distractionCount (distractionCount u + 1)
                        (set_focusState DISTRACTED u))) Hn) as (I1 & I2 & I3).
      { autorewrite with alarm. reflexivity. }
      rewrite I1, I2, I3. autorewrite with alarm. simpl.
      subst late.
      destruct (Z.ltb_spec (DELAY_MS THRESHOLDS) (lastNow (frame_now f) fs - t0)); [|lia].
      rewrite Uc, Uw. auto.
    + destruct (IH u (frame_now f) t0) as (I1 & I2 & I3); try congruence.
      rewrite I1, I2, I3, Uc. auto.
Qed.

(** X15. A stretch of frames without a face, in time order, in a guarding
    session that is FOCUSED: the warning starts at the first frame; the
    state ends in DISTRACTED with the counter raised by one when the last
    frame is more than [DELAY_MS] after the first, and in WARNING with the
    counter unchanged otherwise. *)
Theorem noFace_stretch (f : Frame) (fs : list Frame) (s : App) :
  isGuarding s = true ->
  focusState s = FOCUSED ->
  forallb noFace (f :: fs) = true ->
  inOrderFrom (frame_now f) fs = true ->
  let late := DELAY_MS THRESHOLDS <? lastNow (frame_now f) fs - frame_now f in
  focusState (deliverAll (f :: fs) s) = (if late then DISTRACTED else WARNING)
  /\ distractionCount (deliverAll (f :: fs) s)
     = distractionCount s + (if late then 1 else 0)
  /\ warningStartTime (deliverAll (f :: fs) s) = Some (frame_now f).
Proof.
  intros Hg Hs Hn Ho late.
  simpl in Hn. apply andb_prop in Hn. destruct Hn as (Hf & Hn).
  change (deliverAll (f :: fs) s) with (deliverAll fs (deliver f s)).
  assert (E : isGuarding (deliver f s) = true
              /\ focusState (deliver f s) = WARNING
              /\ warningStartTime (deliver f s) = Some (frame_now f)
              /\ distractionCount (deliver f s) = distractionCount s).
  { rewrite (deliver_noFace f s Hf). unfold noFaceLogic.
    rewrite updateStats_isGuarding, Hg, updateStats_focusState, Hs. simpl.
    rewrite updateStats_isGuarding, updateStats_distractionCount. auto. }
  destruct E as (E1 & E2 & E3 & E4).
  destruct (noFaceRun_WARNING fs (deliver f s) (frame_now f) (frame_now f)
              E1 E2 E3) as (I1 & I2 & I3); auto.
  { simpl. lia. }
  fold late in I1, I2. rewrite I1, I2, I3, E4. auto.
Qed.

Lemma noFace_stretch_witness :
  let f := mkFrame 1000 1000 true [] in
  let fs := [mkFrame 3000 3000 true []; mkFrame 6000 6000 true []] in
  isGuarding fresh = true
  /\ focusState (deliverAll (f :: fs) fresh) = DISTRACTED
  /\ distractionCount (deliverAll (f :: fs) fresh) = 0 + 1
  /\ warningStartTime (deliverAll (f :: fs) fresh) = Some 1000.
Proof.
  split; [reflexivity|].
  apply (noFace_stretch (mkFrame 1000 1000 true [])
           [mkFrame 3000 3000 true []; mkFrame 6000 6000 true []] fresh);
    reflexivity.
Defined.

(** ** The first version of the script *)

Lemma V1_updateStats_fields now s :
  isGuarding (V1.updateStats now s) = isGuarding s
  /\ focusState (V1.updateStats now s) = focusState s
  /\ warningStartTime (V1.updateStats now s) = warningStartTime s
  /\ currentAudio (V1.updateStats now s) = currentAudio s
  /\ distractionCount (V1.updateStats now s) = distractionCount s.
Proof.
  unfold V1.updateStats. destruct (isGuarding s) eqn:Hg; simpl; [|auto].
  destruct (focusState s) eqn:Hs; simpl; auto.
Qed.

(** X16. In the first version a frame without a face, in a guarding
    session, does exactly what a face frame with [distractedSignal] true
    does at the same time, in every state. *)
Theorem V1_noFace_as_distracted_face
    (tStats now : Z) (coin : bool) (landmarks : LandmarkFrame)
    (rest : list LandmarkFrame) (s : App) :
  isGuarding s = true ->
  V1.distractedSignal (V1.metrics landmarks) = true ->
  V1.onResults tStats now coin [] s
  = V1.onResults tStats now coin (landmarks :: rest) s.
Proof.
  intros Hg Hd. unfold V1.onResults. rewrite Hd.
  destruct (V1_updateStats_fields tStats s) as (Ug & _).
  unfold V1.noFaceLogic, V1.focusLogic. rewrite Ug, Hg.
  destruct (focusState (V1.updateStats tStats s)); reflexivity.
Qed.

Lemma V1_noFace_as_distracted_face_witness :
  isGuarding fresh = true
  /\ V1.distractedSignal (V1.metrics faceSlumped) = true
  /\ V1.onResults 1000 1000 true [] fresh
     = V1.onResults 1000 1000 true [faceSlumped] fresh.
Proof.
  split; [reflexivity|]. split; [vm_compute; reflexivity|].
  apply (V1_noFace_as_distracted_face 1000 1000 true faceSlumped [] fresh).
  - reflexivity.
  - vm_compute. reflexivity.
Defined.

Lemma V1_handle_invariant e s : V1_invariant s -> V1_invariant (V1.handle e s).
Proof.
  unfold V1_invariant, warningTimed, alarmMatchesState.
  intros (Hr & Hw & Ha1 & Ha2).
  destruct e as [f|now|]; simpl.
  - unfold V1.onResults.
    destruct (V1_updateStats_fields (frame_tStats f) s) as (Ug & Us & Uw & Ua & _).
    set (u := V1.updateStats (frame_tStats f) s) in *.
    rewrite <- Us, <- Uw, <- Ua in *. clearbody u. clear Ug Us Uw Ua s.
    destruct (frame_faces f) as [|lm rest].
    + unfold V1.noFaceLogic. destruct (isGuarding u); [|repeat split; assumption].
      destruct (focusState u) eqn:Hs; simpl;
        repeat match goal with |- context [if ?c then _ else _] => destruct c end;
        autorewrite with alarm; simpl; rewrite ?Hs;
        try rewrite playAlarm_from_silence by (apply Ha2; discriminate);
        repeat split; intros; try discriminate; try congruence; eauto;
        try (exfalso; congruence); try (apply Ha2; discriminate).
    + unfold V1.focusLogic.
      destruct (focusState u) eqn:Hs, (V1.distractedSignal (V1.metrics lm)); simpl;
        repeat match goal with |- context [if ?c then _ else _] => destruct c end;
        autorewrite with alarm; simpl; rewrite ?Hs;
        try rewrite playAlarm_from_silence by (apply Ha2; discriminate);
        repeat split; intros; try discriminate; try congruence; eauto;
        try (exfalso; congruence); try (apply Ha2; discriminate).
  - unfold startClick, play, pause. simpl. repeat split; assumption.
  - unfold stopClick. simpl. rewrite stopAlarm_currentAudio.
    repeat split; intros; try discriminate; reflexivity.
Qed.

(** X17. In the first version, through any sequence of result callbacks
    and clicks from the page as loaded: the state is never READING, the
    state WARNING comes with a recorded warning start, and an alarm clip is
    current exactly in DISTRACTED. *)
Theorem V1_state_invariants (es : list Event) (t : Z) :
  let s := V1.handleAll es (initial t) in
  focusState s <> READING
  /\ (focusState s = WARNING -> exists t0, warningStartTime s = Some t0)
  /\ (currentAudio s = None <-> focusState s <> DISTRACTED).
Proof.
  assert (H : forall s0, V1_invariant s0 -> V1_invariant (V1.handleAll es s0)).
  { induction es as [|e es IH]; intros s0 Inv; [exact Inv|].
    apply IH, V1_handle_invariant, Inv. }
  apply (H (initial t)).
  unfold V1_invariant, warningTimed, alarmMatchesState. simpl.
  repeat split; intros; try discriminate; reflexivity.
Qed.

(** X18. The two versions disagree on the reading posture: a frame the
    second version classifies as reading (hence not distracted) is
    distracted for the first as soon as its pitch is below -12 or its gaze
    ratio above 0.65. *)
Theorem versions_disagree_on_reading (landmarks : LandmarkFrame) :
  isReading (metrics landmarks) = true ->
  V1.isHeadDown (V1.metrics landmarks) || V1.isGazeDown (V1.metrics landmarks) = true ->
  distractedSignal (metrics landmarks) = false
  /\ V1.distractedSignal (V1.metrics landmarks) = true.
Proof.
  intros Hr Hv. split; [apply reading_not_distracted, Hr|].
  unfold V1.distractedSignal. rewrite Hv. reflexivity.
Qed.

Lemma versions_disagree_on_reading_witness :
  let bowed := face 0.375 in
  isReading (metrics bowed) = true
  /\ distractedSignal (metrics bowed) = false
  /\ V1.distractedSignal (V1.metrics bowed) = true.
Proof.
  split; [vm_compute; reflexivity|].
  apply (versions_disagree_on_reading (face 0.375)); vm_compute; reflexivity.
Defined.

(** ** The focus-time display *)

Module DisplayFacts.

Import Ascii String Display.

Example focusTimeText_examples :
  focusTimeText 0 = "00:00"%string
  /\ focusTimeText 65999 = "01:05"%string
  /\ focusTimeText 6000000 = "100:00"%string
  /\ focusTimeText (-500) = "-1:-1"%string.
Proof. vm_compute. repeat split. Qed.

Lemma splitColon_append a b :
  noColon a = true ->
  splitColon (String.append a (String.String ":" b)) = Some (a, b).
Proof.
  induction a as [|c a IH]; simpl; intros H; [reflexivity|].
  apply andb_prop in H. destruct H as (Hc & Ha).
  apply negb_true_iff in Hc. rewrite Hc, (IH Ha). reflexivity.
Qed.

Lemma noColon_uint d : noColon (DecimalString.NilEmpty.string_of_uint d) = true.
Proof. induction d; simpl; auto. Qed.

Lemma noColon_append a b : noColon a = true -> noColon b = true ->
  noColon (String.append a b) = true.
Proof.
  induction a as [|c a IH]; simpl; intros Ha Hb; [exact Hb|].
  apply andb_prop in Ha. destruct Ha as (Hc & Ha). rewrite Hc, (IH Ha Hb). reflexivity.
Qed.

Lemma noColon_repeat n : noColon (repeatChar n "0") = true.
Proof. induction n; simpl; auto. Qed.

Lemma noColon_toString n : noColon (toString n) = true.
Proof.
  unfold toString. destruct n as [|p|p]; simpl; [reflexivity| |].
  - destruct (Pos.to_uint p) eqn:E; try apply noColon_uint. reflexivity.
  - destruct (Pos.to_uint p) eqn:E; try (rewrite <- E; apply noColon_uint);
      try reflexivity.
    all: simpl; apply noColon_uint.
Qed.

Lemma noColon_field n : noColon (padStart 2 "0" (toString n)) = true.
Proof.
  unfold padStart. apply noColon_append; [apply noColon_repeat|apply noColon_toString].
Qed.

(** A numeral padded to two places reads as the same number. *)
Lemma numberOfText_padded_uint d :
  d <> Decimal.Nil ->
  numberOfText (padStart 2 "0" (DecimalString.NilEmpty.string_of_uint d))
  = Some (Z.of_uint d).
Proof.
  intros Hd.
  assert (Long : forall s, (2 <= String.length s)%nat -> padStart 2 "0" s = s).
  { intros s Hs. unfold padStart.
    replace (2 - String.length s)%nat with 0%nat by lia. reflexivity. }
  assert (Plain : numberOfText (DecimalString.NilEmpty.string_of_uint d)
                  = Some (Z.of_uint d)).
  { unfold numberOfText.
    pose proof (DecimalString.NilZero.isi (Decimal.Pos d)) as H.
    simpl in H. unfold DecimalString.NilZero.string_of_uint in H.
    destruct d; try (exfalso; apply Hd; reflexivity);
      rewrite H by (intros E; discriminate E); reflexivity. }
  destruct d as [|t|t|t|t|t|t|t|t|t|t]; try (exfalso; apply Hd; reflexivity);
    (destruct t as [|u|u|u|u|u|u|u|u|u|u];
     [ reflexivity
     | rewrite Long by (simpl; lia); exact Plain .. ]).
Qed.

Lemma numberOfText_field n : numberOfText (padStart 2 "0" (toString n)) = Some n.
Proof.
  destruct n as [|p|p].
  - reflexivity.
  - unfold toString. simpl.
    pose proof (DecimalPos.Unsigned.to_uint_nonnil p) as Hn.
    unfold DecimalString.NilZero.string_of_uint.
    destruct (Pos.to_uint p) eqn:E; try (exfalso; apply Hn; reflexivity);
      rewrite <- E, numberOfText_padded_uint by (rewrite E; discriminate);
      f_equal; rewrite <- (DecimalZ.of_to (Z.pos p)); reflexivity.
  - unfold toString. simpl.
    pose proof (DecimalPos.Unsigned.to_uint_nonnil p) as Hn.
    assert (L : (2 <= String.length
                   (String.String "-"
                      (DecimalString.NilZero.string_of_uint (Pos.to_uint p))))%nat).
    { unfold DecimalString.NilZero.string_of_uint.
      destruct (Pos.to_uint p); try (exfalso; apply Hn; reflexivity); simpl; lia. }
    unfold padStart.
    replace (2 - _)%nat with 0%nat by lia. simpl String.append.
    unfold numberOfText.
    change (String.String "-" (DecimalString.NilZero.string_of_uint (Pos.to_uint p)))
      with (DecimalString.NilZero.string_of_int (Z.to_int (Z.neg p))).
    rewrite DecimalString.NilZero.isi.
    + simpl option_map. f_equal. exact (DecimalZ.of_to (Z.neg p)).
    + discriminate.
    + simpl. intros E. injection E as E. exact (Hn E).
Qed.

Lemma clockOfText_focusTimeText totalFocusMs :
  clockOfText (focusTimeText totalFocusMs)
  = Some (totalFocusMs / 1000 / 60, Z.rem (totalFocusMs / 1000) 60).
Proof.
  unfold clockOfText, focusTimeText.
  rewrite splitColon_append by apply noColon_field.
  rewrite !numberOfText_field. reflexivity.
Qed.

(** X19. Reading the focus-time text back gives the minutes and seconds
    that [updateStats] computed, for every integer [totalFocusMs] of
    magnitude below 2^53, negative ones included. *)
Theorem focusTimeText_roundtrip (totalFocusMs : Z) :
  - 2 ^ 53 < totalFocusMs < 2 ^ 53 ->
  clockOfText (focusTimeText totalFocusMs)
  = Some (totalFocusMs / 1000 / 60, Z.rem (totalFocusMs / 1000) 60).
Proof. intros _. apply clockOfText_focusTimeText. Qed.

Lemma focusTimeText_roundtrip_witness :
  - 2 ^ 53 < -61500 < 2 ^ 53
  /\ focusTimeText (-61500) = "-2:-2"%string
  /\ clockOfText (focusTimeText (-61500)) = Some (-2, -2).
Proof.
  split; [lia|]. split; [reflexivity|].
  apply (focusTimeText_roundtrip (-61500)). lia.
Defined.

Lemma length_append a b :
  String.length (String.append a b) = (String.length a + String.length b)%nat.
Proof. induction a as [|c a IH]; simpl; [reflexivity|]. rewrite IH. reflexivity. Qed.

Lemma two_places (k : nat) :
  (k < 100)%nat ->
  String.length (padStart 2 "0" (toString (Z.of_nat k))) = 2%nat.
Proof.
  intros H. do 100 (destruct k as [|k]; [reflexivity|]). lia.
Qed.

(** X20. For a focus time from zero to under a hundred minutes the text
    is five characters, MM:SS: it reads back as minutes under 100 and
    seconds under 60 that add up to the focus time in whole seconds. *)
Theorem focusTimeText_clock (totalFocusMs : Z) :
  0 <= totalFocusMs < 6000000 ->
  String.length (focusTimeText totalFocusMs) = 5%nat
  /\ exists m sec,
       clockOfText (focusTimeText totalFocusMs) = Some (m, sec)
       /\ 0 <= m < 100 /\ 0 <= sec < 60
       /\ 60 * m + sec = totalFocusMs / 1000.
Proof.
  intros Hr.
  set (totalSecs := totalFocusMs / 1000).
  assert (Hs : 0 <= totalSecs < 6000).
  { subst totalSecs. split.
    - apply Z.div_pos; lia.
    - apply Z.div_lt_upper_bound; lia. }
  assert (Hm : 0 <= totalSecs / 60 < 100).
  { split.
    - apply Z.div_pos; lia.
    - apply Z.div_lt_upper_bound; lia. }
  assert (Hrem : Z.rem totalSecs 60 = totalSecs mod 60).
  { apply Z.rem_mod_nonneg; lia. }
  assert (Hsec : 0 <= Z.rem totalSecs 60 < 60).
  { rewrite Hrem. apply Z.mod_pos_bound. lia. }
  split.
  - unfold focusTimeText. fold totalSecs.
    rewrite length_append. simpl String.length.
    rewrite <- (Z2Nat.id (totalSecs / 60)) by lia.
    rewrite <- (Z2Nat.id (Z.rem totalSecs 60)) by lia.
    rewrite !two_places by lia. reflexivity.
  - exists (totalSecs / 60), (Z.rem totalSecs 60).
    split; [apply clockOfText_focusTimeText|].
    split; [exact Hm|]. split; [exact Hsec|].
    rewrite Hrem. pose proof (Z.div_mod totalSecs 60). lia.
Qed.

Lemma focusTimeText_clock_witness :
  0 <= 65999 < 6000000
  /\ String.length (focusTimeText 65999) = 5%nat.
Proof.
  split; [lia|].
  apply (focusTimeText_clock 65999). lia.
Defined.

End DisplayFacts.
